(** * Addicted dashboard: price and supply fetchers, dashboard updater

    A shallow embedding of the two JavaScript sources of the repository,
    the server-side data service ([getWeedPrice], [getTokenSupply],
    [getMintBurnEvents], [getPackDistribution]) and the browser script
    ([fetchWeedPrice], [fetchWeedSupply], [updateDashboard]), followed by
    the properties of their request / response / error-handling contract.

    JavaScript values are an inductive type, numbers are IEEE-754 binary64
    values ([spec_float] at precision 53), exceptions and the console are
    threaded through a small reader/state/exception monad, the network and
    the locale-dependent parts of the host are fields of a [Host] record,
    and the DOM is a finite map from element ids to text contents. *)

From Stdlib Require Import ZArith NArith String Ascii List Bool Lia.
From Stdlib Require Import Floats.SpecFloat.
From stdpp Require Import base option list gmap strings.

#[local] Set Warnings "-register-all".

Import ListNotations.
Local Open Scope string_scope.
Local Open Scope Z_scope.

(* ===================================================================== *)
(** * JavaScript numbers *)
(* ===================================================================== *)

Module Number.

(** A JavaScript Number: a binary64 value with a single NaN. *)
Definition Num : Type := spec_float.

Definition prec : Z := 53.
Definition emax : Z := 1024.

Definition NaN : Num := S754_nan.

(** The Number nearest to an integer (round to nearest, ties to even):
    the value of an integer literal such as [240000000]. *)
Definition of_Z (z : Z) : Num := binary_normalize prec emax z 0 false.

(** The Number nearest to [(-1)^neg * m * 10^e10], the value of a decimal
    literal with digits [m] and decimal exponent [e10]. *)
Definition of_decimal (neg : bool) (m : N) (e10 : Z) : Num :=
  match m with
  | N0 => S754_zero neg
  | Npos p =>
      match e10 with
      | Zneg k =>
          SFdiv prec emax (S754_finite neg p 0)
                (S754_finite false (Pos.pow 10 k) 0)
      | _ => binary_normalize prec emax
               (cond_Zopp neg (Zpos p * 10 ^ e10)) 0 false
      end
  end.

Definition is_NaN (x : Num) : bool :=
  match x with S754_nan => true | _ => false end.

(** [0 < x] on Numbers. *)
Definition is_positive (x : Num) : bool := SFltb (S754_zero false) x.

(** [|x| < 10^21], the range in which [toFixed] prints fixed notation. *)
Definition below_1e21 (x : Num) : bool :=
  match x with
  | S754_zero _ => true
  | S754_finite _ m e =>
      match e with
      | Zneg k => (Zpos m <? 10 ^ 21 * Zpos (Pos.pow 2 k))
      | _ => (Zpos m * 2 ^ e <? 10 ^ 21)
      end
  | _ => false
  end.

End Number.
Export Number.

(* ===================================================================== *)
(** * Decimal digits *)
(* ===================================================================== *)

Module Digits.

Definition digit_char (d : N) : ascii := ascii_of_N (48 + d).

Definition is_digit (c : ascii) : bool :=
  let n := N_of_ascii c in ((48 <=? n) && (n <=? 57))%N.

Definition digit_val (c : ascii) : N := (N_of_ascii c - 48)%N.

(** Decimal digits of [n], most significant first, prepended to [acc];
    [fuel] bounds the number of digits produced. *)
Fixpoint digits_go (fuel : nat) (n : N) (acc : list ascii) : list ascii :=
  match fuel with
  | O => acc
  | S fuel' =>
      let acc' := digit_char (n mod 10) :: acc in
      if (n / 10 =? 0)%N then acc' else digits_go fuel' (n / 10) acc'
  end.

(** The decimal representation of [n] ("0" for zero). *)
Definition digits (n : N) : list ascii :=
  digits_go (S (N.to_nat (N.size n))) n [].

Definition Z_to_string (z : Z) : string :=
  match z with
  | Zneg p => String "-" (string_of_list_ascii (digits (Npos p)))
  | _ => string_of_list_ascii (digits (Z.to_N z))
  end.

(** Value of a digit sequence read most significant first. *)
Fixpoint digits_value (acc : N) (ds : list ascii) : N :=
  match ds with
  | [] => acc
  | c :: ds' => digits_value (10 * acc + digit_val c)%N ds'
  end.

(** The longest prefix of decimal digits, and what follows it. *)
Fixpoint span_digits (s : list ascii) : list ascii * list ascii :=
  match s with
  | c :: s' =>
      if is_digit c
      then let '(ds, rest) := span_digits s' in (c :: ds, rest)
      else ([], s)
  | [] => ([], [])
  end.

End Digits.
Export Digits.

(* ===================================================================== *)
(** * JavaScript values and the built-ins the program calls *)
(* ===================================================================== *)

Module JS.

(** Values as [JSON.parse] builds them, plus [undefined].  An object is
    the list of its own properties; [own_property] reads the first
    binding of a key, so a list stands for the object whose property
    [k] holds that binding.  Strings are UTF-8 encoded text. *)
Inductive Value : Type :=
| VUndefined
| VNull
| VBool (b : bool)
| VNum (x : Num)
| VStr (s : string)
| VArr (elems : list Value)
| VObj (props : list (string * Value)).

(** What a [throw] carries. *)
Inductive Exn : Type :=
| TypeError (msg : string)
| SyntaxError (msg : string)
| FetchError (msg : string)
| Error (msg : string).

Inductive Completion (A : Type) : Type :=
| Normal (a : A)
| Throw (e : Exn).
Arguments Normal {A} a.
Arguments Throw {A} e.

Definition is_nullish (v : Value) : bool :=
  match v with VUndefined | VNull => true | _ => false end.

(** ToBoolean: [undefined], [null], [false], [+0], [-0], [NaN] and the
    empty string are falsy, everything else is truthy. *)
Definition ToBoolean (v : Value) : bool :=
  match v with
  | VUndefined | VNull => false
  | VBool b => b
  | VNum (S754_zero _) | VNum S754_nan => false
  | VNum _ => true
  | VStr EmptyString => false
  | VStr _ => true
  | VArr _ | VObj _ => true
  end.

(** [a || b] *)
Definition logical_or (a b : Value) : Value :=
  if ToBoolean a then a else b.

Fixpoint own_property (k : string) (props : list (string * Value))
  : option Value :=
  match props with
  | [] => None
  | (k', v) :: props' =>
      if String.eqb k k' then Some v else own_property k props'
  end.

(** [v.k] / [v[k]] for the property names this program reads ("data",
    the mint address, "price", "result", "value", "uiAmountString"):
    none of them is an array index, "length" or a member of a built-in
    prototype, so only an object's own properties can answer; reading a
    property of [undefined] or [null] throws a TypeError. *)
Definition member (v : Value) (k : string) : Completion Value :=
  match v with
  | VUndefined | VNull =>
      Throw (TypeError ("Cannot read properties of nullish value, reading " ++ k))
  | VObj props => Normal (default VUndefined (own_property k props))
  | _ => Normal VUndefined
  end.

(** One link [v?.k] of an optional chain: [undefined] when [v] is
    nullish, which then also answers the links that follow. *)
Definition opt_member (v : Value) (k : string) : Completion Value :=
  if is_nullish v then Normal VUndefined else member v k.

(** ** parseFloat *)

(** The number of bytes of the WhiteSpace or LineTerminator code point
    that starts [s]; 0 when [s] starts with none.  These are TAB, LF, VT,
    FF, CR, SP, U+00A0, U+1680, U+2000-U+200A, U+2028, U+2029, U+202F,
    U+205F, U+3000 and U+FEFF. *)
Definition white_space_length (s : list ascii) : nat :=
  match map N_of_ascii (take 3 s) with
  | (9 | 10 | 11 | 12 | 13 | 32)%N :: _ => 1
  | 194%N :: 160%N :: _ => 2
  | [225; 154; 128]%N => 3
  | [226; 128; b]%N =>
      if ((128 <=? b) && (b <=? 138) || (b =? 168) || (b =? 169)
          || (b =? 175))%N
      then 3 else 0
  | [226; 129; 159]%N => 3
  | [227; 128; 128]%N => 3
  | [239; 187; 191]%N => 3
  | _ => 0
  end%nat.

Fixpoint trimStart_go (fuel : nat) (s : list ascii) : list ascii :=
  match fuel with
  | O => s
  | S fuel' =>
      match white_space_length s with
      | O => s
      | n => trimStart_go fuel' (drop n s)
      end
  end.

(** [s] without its leading white space. *)
Definition trimStart (s : list ascii) : list ascii :=
  trimStart_go (length s) s.

Fixpoint starts_with (p s : list ascii) : bool :=
  match p, s with
  | [], _ => true
  | a :: p', b :: s' => Ascii.eqb a b && starts_with p' s'
  | _ :: _, [] => false
  end.

(** ExponentPart: [e] or [E], an optional sign, at least one digit.
    The exponent it denotes; 0 when no complete exponent part starts
    [s] (the literal then ends before it). *)
Definition exponent_part (s : list ascii) : Z :=
  match s with
  | c :: s' =>
      if Ascii.eqb c "e" || Ascii.eqb c "E" then
        let '(neg, s'') :=
          match s' with
          | "+"%char :: t => (false, t)
          | "-"%char :: t => (true, t)
          | _ => (false, s')
          end in
        match fst (span_digits s'') with
        | [] => 0
        | ds => cond_Zopp neg (Z.of_N (digits_value 0 ds))
        end
      else 0
  | [] => 0
  end.

(** The value of the longest prefix of [s] that is a
    StrUnsignedDecimalLiteral, negated when [neg]; NaN without one. *)
Definition unsigned_literal (neg : bool) (s : list ascii) : Num :=
  if starts_with (list_ascii_of_string "Infinity") s
  then S754_infinity neg
  else
    let '(ip, rest) := span_digits s in
    match rest with
    | "."%char :: rest' =>
        let '(fp, rest'') := span_digits rest' in
        match ip, fp with
        | [], [] => NaN
        | _, _ =>
            of_decimal neg (digits_value 0 (ip ++ fp)%list)
                       (exponent_part rest'' - Z.of_nat (length fp))
        end
    | _ =>
        match ip with
        | [] => NaN
        | _ => of_decimal neg (digits_value 0 ip) (exponent_part rest)
        end
    end.

(** [parseFloat] of a string: leading white space is skipped, then the
    longest prefix that is a StrDecimalLiteral is converted, rounding
    to the nearest Number. *)
Definition parseFloat_string (s : string) : Num :=
  match trimStart (list_ascii_of_string s) with
  | "+"%char :: t => unsigned_literal false t
  | "-"%char :: t => unsigned_literal true t
  | t => unsigned_literal false t
  end.

(** [parseFloat(v)] is [parseFloat_string (ToString v)].  ToString of a
    Number prints digits that read back as the same Number ("0" for
    both zeros); of an array, its elements' strings joined by commas, so
    only the first element is read; of [undefined], [null], a boolean
    or an object, a word that starts no decimal literal. *)
Fixpoint parseFloat (v : Value) : Num :=
  match v with
  | VStr s => parseFloat_string s
  | VNum (S754_zero _) => S754_zero false
  | VNum x => x
  | VArr (v0 :: _) => parseFloat v0
  | VArr [] => NaN
  | VUndefined | VNull | VBool _ | VObj _ => NaN
  end.

(** ** Number.prototype.toFixed *)

(** The integer nearest to [m * 2^e * 10^f], the larger one on a tie. *)
Definition scaled_round (f : nat) (m : positive) (e : Z) : N :=
  let p10 := 10 ^ Z.of_nat f in
  match e with
  | Zneg k =>
      Z.to_N ((2 * (Zpos m * p10) + Zpos (Pos.pow 2 k))
              / (2 * Zpos (Pos.pow 2 k)))
  | _ => Z.to_N (Zpos m * 2 ^ e * p10)
  end.

(** Digits of [n], left-padded with zeros to at least [f + 1] digits,
    with a point before the last [f] of them. *)
Definition fixed_digits (f : nat) (n : N) : list ascii * list ascii :=
  let m := (replicate (S f - length (digits n)) "0"%char ++ digits n)%list in
  (take (length m - f) m, drop (length m - f) m).

Definition fixed_notation (f : nat) (n : N) : string :=
  let '(a, b) := fixed_digits f n in
  match f with
  | O => string_of_list_ascii a
  | S _ => string_of_list_ascii a ++ "." ++ string_of_list_ascii b
  end.

(** [x.toFixed(f)] for [0 <= f <= 100].  [NumberToString] is the host's
    Number::toString, used for magnitudes from [10^21] on. *)
Definition toFixed (NumberToString : Num -> string) (x : Num) (f : nat)
  : string :=
  match x with
  | S754_nan => "NaN"
  | S754_infinity false => "Infinity"
  | S754_infinity true => "-Infinity"
  | S754_zero _ => fixed_notation f 0
  | S754_finite s m e =>
      (if s then "-" else EmptyString)
      ++ (if below_1e21 x
          then fixed_notation f (scaled_round f m e)
          else NumberToString (S754_finite false m e))
  end.

End JS.
Export JS.

(* ===================================================================== *)
(** * The host: network, environment, console, document *)
(* ===================================================================== *)

Module Runtime.

(** An outgoing [fetch]; [body] holds the value whose [JSON.stringify]
    text is sent. *)
Record Request : Type := {
  url : string;
  method : string;
  headers : list (string * string);
  body : option Value;
}.

(** What the program reads of a response: its status, and what
    [res.json()] settles to (the parsed body, or the exception raised
    on a body that is not JSON). *)
Record Response : Type := {
  status : Z;
  json_result : Completion Value;
}.

(** [res.ok]: the status is in the range 200-299. *)
Definition ok (r : Response) : bool :=
  (200 <=? status r) && (status r <=? 299).

Inductive FetchOutcome : Type :=
| Rejected (e : Exn)
| Resolved (r : Response).

(** What the program observes but does not define. [toLocaleString v]
    is [v.toLocaleString(undefined, {maximumFractionDigits: 3})] under
    the host's default locale, for a [v] that is not nullish. *)
Record Host : Type := {
  net : Request -> FetchOutcome;
  process_env : string -> option string;
  NumberToString : Num -> string;
  toLocaleString : Value -> string;
}.

(** What the program changes: the lines written by [console.error], and
    the text content of the document's elements, by id.  The elements
    with an id are taken not to contain one another, so that writing the
    text of one leaves the others in the document. *)
Record State : Type := {
  console : list (string * Exn);
  document : gmap string string;
}.

Definition M (A : Type) : Type := Host -> State -> State * Completion A.

Definition ret {A} (a : A) : M A := fun _ st => (st, Normal a).

Definition throw {A} (e : Exn) : M A := fun _ st => (st, Throw e).

Definition bind {A B} (c : M A) (k : A -> M B) : M B :=
  fun h st =>
    match c h st with
    | (st', Normal a) => k a h st'
    | (st', Throw e) => (st', Throw e)
    end.

(** [try { body } catch (err) { handler }] *)
Definition try_catch {A} (body : M A) (handler : Exn -> M A) : M A :=
  fun h st =>
    match body h st with
    | (st', Normal a) => (st', Normal a)
    | (st', Throw e) => handler e h st'
    end.

Definition lift {A} (c : Completion A) : M A := fun _ st => (st, c).

Definition host : M Host := fun h st => (st, Normal h).

(** [await fetch(...)] *)
Definition fetch (req : Request) : M Response :=
  fun h st =>
    match net h req with
    | Rejected e => (st, Throw e)
    | Resolved r => (st, Normal r)
    end.

(** [await res.json()] *)
Definition json (r : Response) : M Value := lift (json_result r).

(** [console.error(msg, err)] *)
Definition console_error (msg : string) (err : Exn) : M unit :=
  fun _ st =>
    ({| console := (console st ++ [(msg, err)])%list;
        document := document st |}, Normal tt).

(** [document.getElementById(id)]: the element, or [null]. *)
Definition getElementById (id : string) : M (option string) :=
  fun _ st =>
    (st, Normal (match document st !! id with
                 | Some _ => Some id
                 | None => None
                 end)).

(** [el.textContent = text] *)
Definition set_textContent (el : string) (text : string) : M unit :=
  fun _ st =>
    ({| console := console st; document := <[el := text]> (document st) |},
     Normal tt).

(** [v.toFixed(f)]: only Numbers have the method. *)
Definition call_toFixed (v : Value) (f : nat) : M string :=
  fun h st =>
    match v with
    | VNum x => (st, Normal (toFixed (NumberToString h) x f))
    | _ => (st, Throw (TypeError "toFixed is not a function"))
    end.

(** [v.toLocaleString(undefined, { maximumFractionDigits: 3 })] *)
Definition call_toLocaleString (v : Value) : M string :=
  fun h st =>
    if is_nullish v
    then (st, Throw (TypeError "Cannot read properties of nullish value"))
    else (st, Normal (toLocaleString h v)).

Definition GET (u : string) : Request :=
  {| url := u; method := "GET"; headers := []; body := None |}.

End Runtime.
Export Runtime.

Notation "x <- c1 ;; c2" := (bind c1 (fun x => c2))
  (at level 100, c1 at next level, c2 at level 200, right associativity).
Notation "c1 ;; c2" := (bind c1 (fun _ => c2))
  (at level 100, c2 at level 200, right associativity).

(* ===================================================================== *)
(** * The data service (server side) *)
(* ===================================================================== *)

Module Service.

(** [process.env.SOLANA_RPC_ENDPOINT || 'https://api.mainnet-beta.solana.com'] *)
Definition RPC_ENDPOINT (h : Host) : string :=
  match process_env h "SOLANA_RPC_ENDPOINT" with
  | Some (String c s) => String c s
  | Some EmptyString | None => "https://api.mainnet-beta.solana.com"
  end.

Definition WEED_MINT_ADDRESS : string :=
  "E2gLkTXSbbTMmJM19xkquawun2ShJSi7G59A8c2PtbFa".

Definition getWeedPrice : M Value :=
  try_catch
    (res <- fetch (GET ("https://lite-api.jup.ag/price/v3?ids="
                        ++ WEED_MINT_ADDRESS)) ;;
     data <- json res ;;
     data_data <- lift (opt_member data "data") ;;
     priceInfo <- lift (opt_member data_data WEED_MINT_ADDRESS) ;;
     price <- lift (opt_member priceInfo "price") ;;
     ret (logical_or price VNull))
    (fun err =>
       console_error "Failed to fetch WEED price:" err ;;
       ret VNull).

Definition getTokenSupply : M Value :=
  let payload :=
    VObj [("jsonrpc", VStr "2.0");
          ("id", VNum (of_Z 1));
          ("method", VStr "getTokenSupply");
          ("params", VArr [VStr WEED_MINT_ADDRESS])] in
  try_catch
    (h <- host ;;
     res <- fetch {| url := RPC_ENDPOINT h;
                     method := "POST";
                     headers := [("Content-Type", "application/json")];
                     body := Some payload |} ;;
     (if negb (ok res)
      then throw (Error ("HTTP " ++ Z_to_string (status res)))
      else ret tt) ;;
     data <- json res ;;
     data_result <- lift (member data "result") ;;
     data_result_value <- lift (member data_result "value") ;;
     uiAmountString <- lift (member data_result_value "uiAmountString") ;;
     let supply := parseFloat uiAmountString in
     ret (VObj [("total", VNum (of_Z 240000000)); ("supply", VNum supply)]))
    (fun err =>
       console_error "Failed to fetch token supply:" err ;;
       ret VNull).

(** [async function getMintBurnEvents(limit = 100)] *)
Definition getMintBurnEvents (limit : Value) : M Value :=
  let limit := match limit with VUndefined => VNum (of_Z 100) | _ => limit end in
  ret VNull.

Definition getPackDistribution (programId : Value) : M Value :=
  ret VNull.

End Service.

(* ===================================================================== *)
(** * The dashboard script (browser side) *)
(* ===================================================================== *)

Module Main.

Definition fetchWeedPrice : M Value :=
  try_catch
    (res <- fetch (GET "https://price.jup.ag/v4/price?ids=E2gLkTXSbbTMmJM19xkquawun2ShJSi7G59A8c2PtbFa") ;;
     data <- json res ;;
     data_data <- lift (opt_member data "data") ;;
     priceInfo <- lift (opt_member data_data
                          "E2gLkTXSbbTMmJM19xkquawun2ShJSi7G59A8c2PtbFa") ;;
     price <- lift (opt_member priceInfo "price") ;;
     ret (logical_or price VNull))
    (fun err =>
       console_error "Failed to fetch WEED price:" err ;;
       ret VNull).

Definition fetchWeedSupply : M Value :=
  try_catch
    (let payload :=
       VObj [("jsonrpc", VStr "2.0");
             ("id", VNum (of_Z 1));
             ("method", VStr "getTokenSupply");
             ("params",
              VArr [VStr "E2gLkTXSbbTMmJM19xkquawun2ShJSi7G59A8c2PtbFa"])] in
     res <- fetch {| url := "https://api.mainnet-beta.solana.com";
                     method := "POST";
                     headers := [("Content-Type", "application/json")];
                     body := Some payload |} ;;
     (if negb (ok res)
      then throw (Error ("HTTP " ++ Z_to_string (status res)))
      else ret tt) ;;
     data <- json res ;;
     data_result <- lift (member data "result") ;;
     data_result_value <- lift (member data_result "value") ;;
     uiAmountString <- lift (member data_result_value "uiAmountString") ;;
     let supply := parseFloat uiAmountString in
     ret (VNum supply))
    (fun err =>
       console_error "Failed to fetch token supply:" err ;;
       ret VNull).

(** [v !== null] *)
Definition not_null (v : Value) : bool :=
  match v with VNull => false | _ => true end.

Definition updateDashboard : M unit :=
  price <- fetchWeedPrice ;;
  supply <- fetchWeedSupply ;;
  (if not_null price then
     priceEl <- getElementById "weed-price" ;;
     match priceEl with
     | Some el =>
         fixed <- call_toFixed price 4 ;;
         set_textContent el ("$" ++ fixed)
     | None => ret tt
     end
   else ret tt) ;;
  (if not_null supply then
     supplyEl <- getElementById "current-supply" ;;
     match supplyEl with
     | Some el =>
         text <- call_toLocaleString supply ;;
         set_textContent el text
     | None => ret tt
     end
   else ret tt).

End Main.

(* ===================================================================== *)
(** * A reference host *)
(* ===================================================================== *)

(** One host to run the program on: Number::toString as ECMAScript
    defines it, and [toLocaleString] as ECMA-402 defines it for the
    en-US locale ([maximumFractionDigits: 3], half-expand rounding of
    the exact value, groups of three digits).  The properties below hold
    for every host; this one supplies concrete runs. *)
Module Reference.

Definition Num_eqb (x y : Num) : bool :=
  match x, y with
  | S754_zero a, S754_zero b => Bool.eqb a b
  | S754_infinity a, S754_infinity b => Bool.eqb a b
  | S754_nan, S754_nan => true
  | S754_finite a m e, S754_finite b m' e' =>
      Bool.eqb a b && Pos.eqb m m' && Z.eqb e e'
  | _, _ => false
  end.

(** [num / den * 10^j] as a fraction. *)
Definition scale10 (num den j : Z) : Z * Z :=
  match j with
  | Zneg k => (num, den * Zpos (Pos.pow 10 k))
  | _ => (num * 10 ^ j, den)
  end.

Fixpoint dropwhile_zeros (ds : list ascii) : list ascii :=
  match ds with
  | c :: ds' => if Ascii.eqb c "0" then dropwhile_zeros ds' else ds
  | [] => []
  end.

(** The [n] with [10^(n-1) <= num / den < 10^n]. *)
Definition magnitude (num den : Z) : Z :=
  let a := Z.of_nat (length (digits (Z.to_N num))) in
  let b := Z.of_nat (length (digits (Z.to_N den))) in
  let '(p, q) := scale10 num den (b - a) in
  if q <=? p then a - b + 1 else a - b.

(** The least [k >= k0], with digits [s] and exponent [n], for which
    [s * 10^(n-k)] reads back as [x]; of the two candidates around the
    exact value the nearer one is tried first. *)
Fixpoint shortest (fuel : nat) (x : Num) (num den n : Z) (k : Z)
  : Z * Z :=
  match fuel with
  | O => (0, k)
  | S fuel' =>
      let '(p, q) := scale10 num den (k - n) in
      let lo := p / q in
      let hi := lo + 1 in
      let reads s := Num_eqb (of_decimal false (Z.to_N s) (n - k)) x in
      let nearer_lo :=
        match 2 * (p mod q) ?= q with
        | Lt => true
        | Gt => false
        | Eq => Z.even lo
        end in
      let '(first, second) := if nearer_lo then (lo, hi) else (hi, lo) in
      if reads first then (first, k)
      else if reads second then (second, k)
      else shortest fuel' x num den n (k + 1)
  end.

Definition strip_trailing_zeros (ds : list ascii) : list ascii :=
  match dropwhile_zeros (rev ds) with
  | [] => ["0"%char]
  | r => rev r
  end.

Definition zeros (n : Z) : list ascii := replicate (Z.to_nat n) "0"%char.

(** Number::toString of the finite positive value [m * 2^e]. *)
Definition positive_to_string (m : positive) (e : Z) : string :=
  let '(num, den) :=
    match e with
    | Zneg j => (Zpos m, Zpos (Pos.pow 2 j))
    | _ => (Zpos m * 2 ^ e, 1)
    end in
  let n0 := magnitude num den in
  let '(s, k0) := shortest 17 (S754_finite false m e) num den n0 1 in
  let all := digits (Z.to_N s) in
  (* a carry gives [s] one digit more than [k0] *)
  let n := n0 + Z.of_nat (length all) - k0 in
  let ds := strip_trailing_zeros all in
  let k := Z.of_nat (length ds) in
  string_of_list_ascii
    (if (k <=? n) && (n <=? 21) then ds ++ zeros (n - k)
     else if (0 <? n) && (n <=? 21)
          then take (Z.to_nat n) ds ++ "."%char :: drop (Z.to_nat n) ds
     else if (-6 <? n) && (n <=? 0)
          then "0"%char :: "."%char :: zeros (- n) ++ ds
     else
       let exponent :=
         "e"%char :: (if n - 1 <? 0 then "-"%char else "+"%char)
                  :: digits (Z.to_N (Z.abs (n - 1))) in
       match ds with
       | [d] => d :: exponent
       | d :: ds' => d :: "."%char :: ds' ++ exponent
       | [] => exponent
       end)%list.

Definition number_to_string (x : Num) : string :=
  match x with
  | S754_nan => "NaN"
  | S754_zero _ => "0"
  | S754_infinity s => if s then "-Infinity" else "Infinity"
  | S754_finite s m e =>
      (if s then "-" else EmptyString) ++ positive_to_string m e
  end.

(** Digits in groups of three, separated by commas. *)
Fixpoint group3 (fuel : nat) (ds : list ascii) : list ascii :=
  match fuel with
  | O => ds
  | S fuel' =>
      if (length ds <=? 3)%nat then ds
      else (group3 fuel' (take (length ds - 3) ds)
            ++ ","%char :: drop (length ds - 3) ds)%list
  end.

(** Number.prototype.toLocaleString for en-US, at most 3 fraction
    digits. *)
Definition number_to_locale_string (x : Num) : string :=
  match x with
  | S754_nan => "NaN"
  | S754_infinity s => (if s then "-" else EmptyString) ++ "∞"
  | S754_zero s => (if s then "-" else EmptyString) ++ "0"
  | S754_finite s m e =>
      let '(a, b) := fixed_digits 3 (scaled_round 3 m e) in
      let int := group3 (length a) a in
      let frac := dropwhile_zeros (rev b) in
      (if s then "-" else EmptyString)
      ++ string_of_list_ascii
           (match frac with
            | [] => int
            | _ => int ++ "."%char :: rev frac
            end)%list
  end.

Fixpoint to_locale_string (v : Value) : string :=
  match v with
  | VNum x => number_to_locale_string x
  | VStr s => s
  | VBool b => if b then "true" else "false"
  | VObj _ => "[object Object]"
  | VArr elems =>
      (fix join (l : list Value) : string :=
         match l with
         | [] => EmptyString
         | [e] => to_locale_string e
         | e :: l' => to_locale_string e ++ "," ++ join l'
         end) elems
  | VUndefined | VNull => EmptyString
  end.

(** A host that answers every price request with [price_answer] and
    every JSON-RPC request with [supply_answer]. *)
Definition reference_host (price_answer supply_answer : FetchOutcome)
  : Host :=
  {| net := fun req =>
              if String.eqb (method req) "POST"
              then supply_answer else price_answer;
     process_env := fun _ => None;
     NumberToString := number_to_string;
     toLocaleString := to_locale_string |}.

(** A document with both display elements. *)
Definition dashboard_page : State :=
  {| console := [];
     document := <["weed-price" := "Loading..."]>
                   (<["current-supply" := "Loading..."]> ∅) |}.

(** A document with neither. *)
Definition empty_page : State :=
  {| console := []; document := ∅ |}.

Definition respond (st : Z) (v : Value) : FetchOutcome :=
  Resolved {| status := st; json_result := Normal v |}.

(** [{"data": {"<mint>": {"price": p}}}] *)
Definition price_body (p : Value) : Value :=
  VObj [("data", VObj [(Service.WEED_MINT_ADDRESS, VObj [("price", p)])])].

(** [{"result": {"value": {"uiAmountString": s}}}] *)
Definition supply_body (s : Value) : Value :=
  VObj [("result", VObj [("value", VObj [("uiAmountString", s)])])].

(** [{"result": {"value": {}}}] *)
Definition supply_body_without_amount : Value :=
  VObj [("result", VObj [("value", VObj [])])].

(** The Number [0.0042]. *)
Definition n0_0042 : Num := of_decimal false 42 (-4).

Definition failed_to_fetch : FetchOutcome :=
  Rejected (FetchError "Failed to fetch").

Definition not_json : FetchOutcome :=
  Resolved {| status := 200;
              json_result := Throw (SyntaxError "Unexpected token") |}.


(** A host with [SOLANA_RPC_ENDPOINT] set to [endpoint], which gives
    [answer] to what is sent there and rejects everything else. *)
Definition overridden_host (endpoint : string) (answer : FetchOutcome)
  : Host :=
  {| net := fun req =>
              if String.eqb (url req) endpoint
              then answer else failed_to_fetch;
     process_env := fun name =>
                      if String.eqb name "SOLANA_RPC_ENDPOINT"
                      then Some endpoint else None;
     NumberToString := number_to_string;
     toLocaleString := to_locale_string |}.

End Reference.

(* ===================================================================== *)
(** * Requests, response shapes and outcomes named in the properties *)
(* ===================================================================== *)

Module Wire.

(** The member [k] of a parsed JSON value: [undefined] when [v] is not
    an object or has no such member. *)
Definition field (k : string) (v : Value) : Value :=
  match v with
  | VObj props => default VUndefined (own_property k props)
  | _ => VUndefined
  end.

(** The token's entry of a price response, and its [price]. *)
Definition entry_of (data : Value) : Value :=
  field Service.WEED_MINT_ADDRESS (field "data" data).

Definition price_of (data : Value) : Value := field "price" (entry_of data).

(** [result.value] and [result.value.uiAmountString] of a JSON-RPC
    response. *)
Definition value_of (data : Value) : Value :=
  field "value" (field "result" data).

Definition uiAmountString_of (data : Value) : Value :=
  field "uiAmountString" (value_of data).

(** The requests the four fetchers send. *)
Definition service_price_request : Request :=
  GET "https://lite-api.jup.ag/price/v3?ids=E2gLkTXSbbTMmJM19xkquawun2ShJSi7G59A8c2PtbFa".

Definition browser_price_request : Request :=
  GET "https://price.jup.ag/v4/price?ids=E2gLkTXSbbTMmJM19xkquawun2ShJSi7G59A8c2PtbFa".

Definition rpc_payload : Value :=
  VObj [("jsonrpc", VStr "2.0");
        ("id", VNum (of_Z 1));
        ("method", VStr "getTokenSupply");
        ("params", VArr [VStr "E2gLkTXSbbTMmJM19xkquawun2ShJSi7G59A8c2PtbFa"])].

Definition rpc_request (endpoint : string) : Request :=
  {| url := endpoint;
     method := "POST";
     headers := [("Content-Type", "application/json")];
     body := Some rpc_payload |}.

Definition service_supply_request (h : Host) : Request :=
  rpc_request (Service.RPC_ENDPOINT h).

Definition browser_supply_request : Request :=
  rpc_request "https://api.mainnet-beta.solana.com".

(** The record [{ total: 240000000, supply: x }]. *)
Definition supply_info (x : Num) : Value :=
  VObj [("total", VNum (of_Z 240000000)); ("supply", VNum x)].

(** [st] after one [console.error(msg, err)]. *)
Definition logged (msg : string) (err : Exn) (st : State) : State :=
  {| console := (console st ++ [(msg, err)])%list;
     document := document st |}.

Definition price_diagnostic : string := "Failed to fetch WEED price:".
Definition supply_diagnostic : string := "Failed to fetch token supply:".

(** The failure outcome of a fetcher: one diagnostic, then [null]. *)
Definition unavailable (msg : string) (err : Exn) (st : State)
  : State * Completion Value :=
  (logged msg err st, Normal VNull).

(** The text of [id]'s element in [st], if the document has one. *)
Definition text_of (id : string) (st : State) : option string :=
  document st !! id.

Definition all_digits (s : list ascii) : Prop :=
  Forall (fun c => is_digit c = true) s.

(** [text] is an optional minus sign, at least one digit, a point and
    exactly four digits. *)
Definition four_decimals (text : string) : Prop :=
  exists (sign : string) (a b : list ascii),
    text = sign ++ string_of_list_ascii a ++ "." ++ string_of_list_ascii b
    /\ (sign = EmptyString \/ sign = "-")
    /\ a <> []
    /\ all_digits a
    /\ all_digits b
    /\ length b = 4%nat.

(** What a price fetcher computes from the answer to its request. *)
Definition price_outcome (answer : FetchOutcome) (st : State)
  : State * Completion Value :=
  match answer with
  | Rejected e => unavailable price_diagnostic e st
  | Resolved r =>
      match json_result r with
      | Throw e => unavailable price_diagnostic e st
      | Normal data => (st, Normal (logical_or (price_of data) VNull))
      end
  end.

(** What a supply fetcher computes from the answer to its request;
    [pack] builds the value returned on success. *)
Definition supply_outcome (pack : Num -> Value) (answer : FetchOutcome)
  (st : State) : State * Completion Value :=
  match answer with
  | Rejected e => unavailable supply_diagnostic e st
  | Resolved r =>
      if ok r then
        match json_result r with
        | Throw e => unavailable supply_diagnostic e st
        | Normal data =>
            match member data "result" with
            | Throw e => unavailable supply_diagnostic e st
            | Normal res =>
                match member res "value" with
                | Throw e => unavailable supply_diagnostic e st
                | Normal val =>
                    match member val "uiAmountString" with
                    | Throw e => unavailable supply_diagnostic e st
                    | Normal u => (st, Normal (pack (parseFloat u)))
                    end
                end
            end
        end
      else unavailable supply_diagnostic
             (Error ("HTTP " ++ Z_to_string (status r))) st
  end.

(** The two price fetchers with their requests, and the two supply
    fetchers with their requests and the shape of their result. *)
Definition price_fetchers : list (M Value * Request) :=
  [(Service.getWeedPrice, service_price_request);
   (Main.fetchWeedPrice, browser_price_request)].

Definition supply_fetchers
  : list (M Value * (Host -> Request) * (Num -> Value)) :=
  [(Service.getTokenSupply, service_supply_request, supply_info);
   (Main.fetchWeedSupply, fun _ => browser_supply_request, VNum)].

(** All four, with the diagnostic each one logs. *)
Definition fetchers : list (M Value * (Host -> Request) * string) :=
  [(Service.getWeedPrice, fun _ => service_price_request, price_diagnostic);
   (Main.fetchWeedPrice, fun _ => browser_price_request, price_diagnostic);
   (Service.getTokenSupply, service_supply_request, supply_diagnostic);
   (Main.fetchWeedSupply, fun _ => browser_supply_request,
     supply_diagnostic)].

(** The two writes of [updateDashboard], given what was fetched. *)
Definition write_price (price : Value) : M unit :=
  if Main.not_null price then
    priceEl <- getElementById "weed-price" ;;
    match priceEl with
    | Some el =>
        fixed <- call_toFixed price 4 ;;
        set_textContent el ("$" ++ fixed)
    | None => ret tt
    end
  else ret tt.

Definition write_supply (supply : Value) : M unit :=
  if Main.not_null supply then
    supplyEl <- getElementById "current-supply" ;;
    match supplyEl with
    | Some el =>
        text <- call_toLocaleString supply ;;
        set_textContent el text
    | None => ret tt
    end
  else ret tt.

End Wire.
Export Wire.

(* ===================================================================== *)
(** * Run equations of the fetchers *)
(* ===================================================================== *)

Lemma opt_member_field (v : Value) (k : string) :
  opt_member v k = Normal (field k v).
Proof. destruct v; reflexivity. Qed.


Lemma field_defined_object (v : Value) (k : string) :
  field k v <> VUndefined -> exists props, v = VObj props.
Proof. destruct v; simpl; intros H; try congruence. eauto. Qed.

#[local] Ltac run :=
  unfold try_catch, bind, fetch, json, lift, ret, throw, host,
    console_error, unavailable, logged; simpl.

Lemma getWeedPrice_run (h : Host) (st : State) :
  Service.getWeedPrice h st = price_outcome (net h service_price_request) st.
Proof.
  unfold Service.getWeedPrice, price_outcome. run.
  change (GET _) with service_price_request.
  destruct (net h service_price_request) as [e | r]; [reflexivity |].
  destruct (json_result r) as [data | e]; [| reflexivity].
  rewrite !opt_member_field. reflexivity.
Qed.

Lemma fetchWeedPrice_run (h : Host) (st : State) :
  Main.fetchWeedPrice h st = price_outcome (net h browser_price_request) st.
Proof.
  unfold Main.fetchWeedPrice, price_outcome. run.
  change (GET _) with browser_price_request.
  destruct (net h browser_price_request) as [e | r]; [reflexivity |].
  destruct (json_result r) as [data | e]; [| reflexivity].
  rewrite !opt_member_field. reflexivity.
Qed.

Lemma getTokenSupply_run (h : Host) (st : State) :
  Service.getTokenSupply h st
  = supply_outcome supply_info (net h (service_supply_request h)) st.
Proof.
  unfold Service.getTokenSupply, supply_outcome. run.
  change {| url := Service.RPC_ENDPOINT h; method := _; headers := _; body := _ |}
    with (service_supply_request h).
  destruct (net h (service_supply_request h)) as [e | r]; [reflexivity |].
  destruct (ok r); simpl; [| reflexivity].
  destruct (json_result r) as [data | e]; [| reflexivity].
  destruct (member data "result") as [res | e]; [| reflexivity].
  destruct (member res "value") as [val | e]; [| reflexivity].
  destruct (member val "uiAmountString") as [u | e]; reflexivity.
Qed.

Lemma fetchWeedSupply_run (h : Host) (st : State) :
  Main.fetchWeedSupply h st
  = supply_outcome VNum (net h browser_supply_request) st.
Proof.
  unfold Main.fetchWeedSupply, supply_outcome. run.
  change {| url := _; method := _; headers := _; body := _ |}
    with browser_supply_request.
  destruct (net h browser_supply_request) as [e | r]; [reflexivity |].
  destruct (ok r); simpl; [| reflexivity].
  destruct (json_result r) as [data | e]; [| reflexivity].
  destruct (member data "result") as [res | e]; [| reflexivity].
  destruct (member res "value") as [val | e]; [| reflexivity].
  destruct (member val "uiAmountString") as [u | e]; reflexivity.
Qed.

Lemma price_fetchers_run (f : M Value) (req : Request) :
  In (f, req) price_fetchers ->
  forall h st, f h st = price_outcome (net h req) st.
Proof.
  intros [E | [E | []]] h st; inversion_clear E.
  - apply getWeedPrice_run.
  - apply fetchWeedPrice_run.
Qed.

Lemma supply_fetchers_run (f : M Value) (req : Host -> Request)
  (pack : Num -> Value) :
  In (f, req, pack) supply_fetchers ->
  forall h st, f h st = supply_outcome pack (net h (req h)) st.
Proof.
  intros [E | [E | []]] h st; inversion_clear E.
  - apply getTokenSupply_run.
  - apply fetchWeedSupply_run.
Qed.

Lemma bind_run {A B : Type} (c : M A) (k : A -> M B) (h : Host) (st : State) :
  bind c k h st
  = match c h st with
    | (st', Normal a) => k a h st'
    | (st', Throw e) => (st', Throw e)
    end.
Proof. reflexivity. Qed.

Lemma updateDashboard_unfold :
  Main.updateDashboard
  = (price <- Main.fetchWeedPrice ;;
     supply <- Main.fetchWeedSupply ;;
     write_price price ;;
     write_supply supply).
Proof. reflexivity. Qed.

(* ===================================================================== *)
(** * The price fetchers *)
(* ===================================================================== *)

Lemma is_positive_truthy (x : Num) :
  is_positive x = true -> ToBoolean (VNum x) = true.
Proof. destruct x as [s | s | | s m e]; simpl; intros H; done. Qed.

Lemma price_outcome_truthy (h : Host) (req : Request) (st : State)
  (r : Response) (data : Value) :
  net h req = Resolved r -> json_result r = Normal data ->
  ToBoolean (price_of data) = true ->
  price_outcome (net h req) st = (st, Normal (price_of data)).
Proof.
  intros Hnet Hjson Ht. unfold price_outcome, logical_or.
  rewrite Hnet, Hjson, Ht. reflexivity.
Qed.

Lemma price_outcome_falsy (h : Host) (req : Request) (st : State)
  (r : Response) (data : Value) :
  net h req = Resolved r -> json_result r = Normal data ->
  ToBoolean (price_of data) = false ->
  price_outcome (net h req) st = (st, Normal VNull).
Proof.
  intros Hnet Hjson Ht. unfold price_outcome, logical_or.
  rewrite Hnet, Hjson, Ht. reflexivity.
Qed.

(** C4. When the response maps the token identifier to a record whose
    [price] is a positive Number, each price fetcher returns exactly that
    Number (and logs nothing). *)
Theorem positive_price_returned (f : M Value) (req : Request) (h : Host)
  (st : State) (r : Response) (data : Value) (x : Num) :
  In (f, req) price_fetchers ->
  net h req = Resolved r ->
  json_result r = Normal data ->
  price_of data = VNum x ->
  is_positive x = true ->
  f h st = (st, Normal (VNum x)).
Proof.
  intros Hf Hnet Hjson Hprice Hpos.
  rewrite (price_fetchers_run f req Hf), <- Hprice.
  apply (price_outcome_truthy h req st r data Hnet Hjson).
  rewrite Hprice. by apply is_positive_truthy.
Qed.

(** C2. When the token identifier's entry is missing from the response,
    or its [price] is absent or falsy (the Number 0 included), each price
    fetcher returns [null]. *)
Theorem missing_or_falsy_price_is_null (f : M Value) (req : Request)
  (h : Host) (st : State) (r : Response) (data : Value) :
  In (f, req) price_fetchers ->
  net h req = Resolved r ->
  json_result r = Normal data ->
  entry_of data = VUndefined
  \/ price_of data = VUndefined
  \/ price_of data = VNum (of_Z 0)
  \/ ToBoolean (price_of data) = false ->
  f h st = (st, Normal VNull).
Proof.
  intros Hf Hnet Hjson Hcase.
  rewrite (price_fetchers_run f req Hf).
  apply (price_outcome_falsy h req st r data Hnet Hjson).
  destruct Hcase as [He | [Hp | [Hp | Hp]]].
  - unfold price_of. rewrite He. reflexivity.
  - rewrite Hp. reflexivity.
  - rewrite Hp. reflexivity.
  - exact Hp.
Qed.

(** C10. Whatever truthy value the response holds in [price], be it a
    negative Number, a string or anything else, each price fetcher
    returns that value unchanged. *)
Theorem truthy_price_returned_unchanged (f : M Value) (req : Request)
  (h : Host) (st : State) (r : Response) (data v : Value) :
  In (f, req) price_fetchers ->
  net h req = Resolved r ->
  json_result r = Normal data ->
  price_of data = v ->
  ToBoolean v = true ->
  f h st = (st, Normal v).
Proof.
  intros Hf Hnet Hjson Hprice Ht. subst v.
  rewrite (price_fetchers_run f req Hf).
  by apply (price_outcome_truthy h req st r data).
Qed.

(* ===================================================================== *)
(** * The supply fetchers *)
(* ===================================================================== *)

Lemma amount_members (data : Value) :
  uiAmountString_of data <> VUndefined ->
  member data "result" = Normal (field "result" data)
  /\ member (field "result" data) "value" = Normal (value_of data)
  /\ member (value_of data) "uiAmountString"
     = Normal (uiAmountString_of data).
Proof.
  intros Hu.
  destruct (field_defined_object _ _ Hu) as [pv Hv].
  assert (Hr : exists pr, field "result" data = VObj pr).
  { apply (field_defined_object _ "value"). fold (value_of data).
    rewrite Hv. discriminate. }
  destruct Hr as [pr Hr].
  assert (Hd : exists pd, data = VObj pd).
  { apply (field_defined_object _ "result"). rewrite Hr. discriminate. }
  destruct Hd as [pd Hd].
  repeat split.
  - rewrite Hd. reflexivity.
  - rewrite Hr. unfold value_of. rewrite Hr. reflexivity.
  - unfold uiAmountString_of. rewrite Hv. reflexivity.
Qed.

Lemma supply_outcome_success (pack : Num -> Value) (h : Host)
  (req : Request) (st : State) (r : Response) (data : Value) :
  net h req = Resolved r -> ok r = true -> json_result r = Normal data ->
  uiAmountString_of data <> VUndefined ->
  supply_outcome pack (net h req) st
  = (st, Normal (pack (parseFloat (uiAmountString_of data)))).
Proof.
  intros Hnet Hok Hjson Hu.
  destruct (amount_members data Hu) as (H1 & H2 & H3).
  unfold supply_outcome. rewrite Hnet, Hok, Hjson, H1, H2, H3. reflexivity.
Qed.

Lemma supply_outcome_settles (pack : Num -> Value) (a : FetchOutcome)
  (st : State) :
  (exists x, supply_outcome pack a st = (st, Normal (pack x)))
  \/ (exists e, supply_outcome pack a st = unavailable supply_diagnostic e st).
Proof.
  unfold supply_outcome.
  destruct a as [e | r]; [eauto |].
  destruct (ok r); [| eauto].
  destruct (json_result r) as [data | e]; [| eauto].
  destruct (member data "result") as [res | e]; [| eauto].
  destruct (member res "value") as [val | e]; [| eauto].
  destruct (member val "uiAmountString") as [u | e]; eauto.
Qed.

Lemma price_outcome_settles (a : FetchOutcome) (st : State) :
  (exists v, price_outcome a st = (st, Normal v)
             /\ (v = VNull \/ ToBoolean v = true))
  \/ (exists e, price_outcome a st = unavailable price_diagnostic e st).
Proof.
  unfold price_outcome.
  destruct a as [e | r]; [eauto |].
  destruct (json_result r) as [data | e]; [| eauto].
  left. exists (logical_or (price_of data) VNull). split; [reflexivity |].
  unfold logical_or. destruct (ToBoolean (price_of data)) eqn:E; auto.
Qed.

(** C1, as the code has it. On a 2xx JSON-RPC response whose
    [result.value.uiAmountString] is a string [s] that parses to a Number
    [p], [getTokenSupply] returns the record
    [{ total: 240000000, supply: p }] while the browser's
    [fetchWeedSupply] returns the bare Number [p]; and every result of
    [getTokenSupply] other than [null] is such a record, with [total]
    the constant 240000000. *)
Theorem supply_fetchers_on_success (h : Host) (st : State) (r : Response)
  (data : Value) (s : string) :
  ok r = true ->
  json_result r = Normal data ->
  uiAmountString_of data = VStr s ->
  is_NaN (parseFloat_string s) = false ->
  (net h (service_supply_request h) = Resolved r ->
   Service.getTokenSupply h st
   = (st, Normal (supply_info (parseFloat_string s))))
  /\ (net h browser_supply_request = Resolved r ->
      Main.fetchWeedSupply h st = (st, Normal (VNum (parseFloat_string s))))
  /\ (forall h' st' v,
        snd (Service.getTokenSupply h' st') = Normal v ->
        v = VNull
        \/ (exists x, v = supply_info x)
           /\ field "total" v = VNum (of_Z 240000000)).
Proof.
  intros Hok Hjson Hu _.
  assert (Hdef : uiAmountString_of data <> VUndefined) by (rewrite Hu; done).
  repeat split.
  - intros Hnet. rewrite getTokenSupply_run.
    rewrite (supply_outcome_success _ h _ st r data Hnet Hok Hjson Hdef).
    rewrite Hu. reflexivity.
  - intros Hnet. rewrite fetchWeedSupply_run.
    rewrite (supply_outcome_success _ h _ st r data Hnet Hok Hjson Hdef).
    rewrite Hu. reflexivity.
  - intros h' st' v. rewrite getTokenSupply_run.
    destruct (supply_outcome_settles supply_info
                (net h' (service_supply_request h')) st') as [[x E] | [e E]];
      rewrite E; simpl; intros [= <-].
    + right. split; [eauto | reflexivity].
    + by left.
Qed.

(** C5. On a response whose status is outside 200-299, each supply
    fetcher logs the status and returns [null]. *)
Theorem non_success_status_is_null (f : M Value) (req : Host -> Request)
  (pack : Num -> Value) (h : Host) (st : State) (r : Response) :
  In (f, req, pack) supply_fetchers ->
  net h (req h) = Resolved r ->
  ~ (200 <= status r <= 299) ->
  snd (f h st) = Normal VNull
  /\ f h st = unavailable supply_diagnostic
                (Error ("HTTP " ++ Z_to_string (status r))) st.
Proof.
  intros Hf Hnet Hstatus.
  rewrite (supply_fetchers_run f req pack Hf).
  assert (Hok : ok r = false).
  { unfold ok. apply andb_false_iff. rewrite !Z.leb_gt. lia. }
  unfold supply_outcome. rewrite Hnet, Hok. split; reflexivity.
Qed.

(** C3, at the inputs where the code departs from it: a 200 response
    with the body [{"result": {"value": {}}}], and one whose
    [uiAmountString] is "n/a".  Reading the absent [uiAmountString]
    throws nothing, [parseFloat] of [undefined] and of "n/a" is NaN, and
    both supply fetchers return it, in the record or bare, with nothing
    logged. *)
Theorem absent_amount_yields_NaN :
  let h := Reference.reference_host
             Reference.failed_to_fetch
             (Reference.respond 200 Reference.supply_body_without_amount) in
  let h' := Reference.reference_host
              Reference.failed_to_fetch
              (Reference.respond 200 (Reference.supply_body (VStr "n/a"))) in
  let st := Reference.empty_page in
  value_of Reference.supply_body_without_amount = VObj []
  /\ uiAmountString_of Reference.supply_body_without_amount = VUndefined
  /\ Service.getTokenSupply h st = (st, Normal (supply_info NaN))
  /\ Main.fetchWeedSupply h st = (st, Normal (VNum NaN))
  /\ Service.getTokenSupply h' st = (st, Normal (supply_info NaN))
  /\ Main.fetchWeedSupply h' st = (st, Normal (VNum NaN)).
Proof. repeat split. Qed.

(* ===================================================================== *)
(** * No fetcher raises *)
(* ===================================================================== *)

Lemma fetchers_run (f : M Value) (req : Host -> Request) (msg : string) :
  In (f, req, msg) fetchers ->
  forall h st,
    (msg = price_diagnostic /\ f h st = price_outcome (net h (req h)) st)
    \/ (msg = supply_diagnostic
        /\ exists pack, f h st = supply_outcome pack (net h (req h)) st).
Proof.
  intros [E | [E | [E | [E | []]]]] h st; inversion_clear E.
  - left. split; [reflexivity | apply getWeedPrice_run].
  - left. split; [reflexivity | apply fetchWeedPrice_run].
  - right. split; [reflexivity |]. eexists. apply getTokenSupply_run.
  - right. split; [reflexivity |]. eexists. apply fetchWeedSupply_run.
Qed.

(** C6. Whatever the network answers, each of the four fetchers
    completes normally: it either returns a value having logged
    nothing, or logs one diagnostic and returns [null]; it never
    completes with an exception.  A rejected [fetch] and a body that is
    not JSON both take the second path. *)
Theorem fetchers_never_raise (f : M Value) (req : Host -> Request)
  (msg : string) (h : Host) (st : State) :
  In (f, req, msg) fetchers ->
  ((exists v, f h st = (st, Normal v))
   \/ (exists e, f h st = unavailable msg e st))
  /\ (forall e, snd (f h st) <> Throw e)
  /\ ((exists e, net h (req h) = Rejected e)
      \/ (exists r e, net h (req h) = Resolved r /\ json_result r = Throw e)
      -> exists e, f h st = unavailable msg e st).
Proof.
  intros Hf.
  assert (Hsettle : (exists v, f h st = (st, Normal v))
                    \/ (exists e, f h st = unavailable msg e st)).
  { destruct (fetchers_run f req msg Hf h st) as [[-> ->] | [-> [pack ->]]].
    - destruct (price_outcome_settles (net h (req h)) st)
        as [(v & E & _) | [e E]]; eauto.
    - destruct (supply_outcome_settles pack (net h (req h)) st)
        as [[x E] | [e E]]; eauto. }
  split; [exact Hsettle |]. split.
  - intros e. destruct Hsettle as [[v ->] | [e' ->]]; discriminate.
  - intros Hfail.
    destruct (fetchers_run f req msg Hf h st) as [[-> ->] | [-> [pack ->]]].
    + unfold price_outcome.
      destruct Hfail as [[e ->] | (r & e & -> & ->)]; eauto.
    + unfold supply_outcome.
      destruct Hfail as [[e ->] | (r & e & -> & ->)]; [eauto |].
      destruct (ok r); eauto.
Qed.

(* ===================================================================== *)
(** * The stubs *)
(* ===================================================================== *)

(** C9. [getMintBurnEvents] returns [null] for every [limit], the
    omitted one (defaulting to 100) included, and [getPackDistribution]
    returns [null] for every [programId]; neither touches the state. *)
Theorem stubs_return_null (arg : Value) (h : Host) (st : State) :
  Service.getMintBurnEvents arg h st = (st, Normal VNull)
  /\ Service.getMintBurnEvents VUndefined h st = (st, Normal VNull)
  /\ Service.getPackDistribution arg h st = (st, Normal VNull).
Proof. repeat split. Qed.

(* ===================================================================== *)
(** * Fixed notation *)
(* ===================================================================== *)

Lemma digit_char_is_digit (d : N) : (d < 10)%N -> is_digit (digit_char d) = true.
Proof.
  intros Hd. unfold is_digit, digit_char.
  rewrite N_ascii_embedding by lia.
  apply andb_true_iff. rewrite !N.leb_le. lia.
Qed.

Lemma digits_go_all_digits (fuel : nat) (n : N) (acc : list ascii) :
  all_digits acc -> all_digits (digits_go fuel n acc).
Proof.
  revert n acc. induction fuel as [| fuel IH]; intros n acc Hacc; simpl.
  - exact Hacc.
  - assert (Hcons : all_digits (digit_char (n mod 10) :: acc)).
    { constructor; [| exact Hacc].
      apply digit_char_is_digit. apply N.mod_lt. lia. }
    destruct (n / 10 =? 0)%N; [exact Hcons | by apply IH].
Qed.

Lemma digits_go_length (fuel : nat) (n : N) (acc : list ascii) :
  (length acc <= length (digits_go fuel n acc))%nat.
Proof.
  revert n acc. induction fuel as [| fuel IH]; intros n acc; simpl.
  - lia.
  - destruct (n / 10 =? 0)%N; simpl.
    + lia.
    + etransitivity; [| apply IH]. simpl. lia.
Qed.

Lemma digits_all_digits (n : N) : all_digits (digits n).
Proof. apply digits_go_all_digits. constructor. Qed.

Lemma digits_nonempty (n : N) : (1 <= length (digits n))%nat.
Proof.
  unfold digits. simpl. destruct (n / 10 =? 0)%N; simpl.
  - lia.
  - etransitivity; [| apply digits_go_length]. simpl. lia.
Qed.

Lemma digit_val_char (d : N) : (d < 10)%N -> digit_val (digit_char d) = d.
Proof.
  intros Hd. unfold digit_val, digit_char.
  rewrite N_ascii_embedding by lia. lia.
Qed.

Lemma digits_value_snoc (a : N) (l : list ascii) (c : ascii) :
  digits_value a (l ++ [c])%list = (10 * digits_value a l + digit_val c)%N.
Proof.
  revert a. induction l as [| c' l IH]; intros a; simpl.
  - reflexivity.
  - apply IH.
Qed.

Lemma digits_go_acc (fuel : nat) (n : N) (acc : list ascii) :
  digits_go fuel n acc = (digits_go fuel n [] ++ acc)%list.
Proof.
  revert n acc. induction fuel as [| fuel IH]; intros n acc; simpl.
  - reflexivity.
  - destruct (n / 10 =? 0)%N; [reflexivity |].
    rewrite (IH _ (_ :: acc)), (IH _ [_]), <- app_assoc. reflexivity.
Qed.

Lemma digits_go_value (fuel : nat) (n : N) :
  (n < 10 ^ N.of_nat fuel)%N -> digits_value 0 (digits_go fuel n []) = n.
Proof.
  revert n. induction fuel as [| fuel IH]; intros n Hn.
  - simpl in *. lia.
  - cbn [digits_go].
    pose proof (N.div_mod n 10 ltac:(lia)) as Hdm.
    pose proof (N.mod_lt n 10 ltac:(lia)) as Hmod.
    destruct (n / 10 =? 0)%N eqn:Hq.
    + apply N.eqb_eq in Hq. cbn [digits_value].
      rewrite digit_val_char by exact Hmod. lia.
    + rewrite digits_go_acc, digits_value_snoc, digit_val_char by exact Hmod.
      rewrite IH; [lia |].
      apply N.Div0.div_lt_upper_bound.
      rewrite Nat2N.inj_succ, N.pow_succ_r' in Hn. exact Hn.
Qed.

(** The digits printed for [n] read back as [n]. *)
Lemma digits_roundtrip (n : N) : digits_value 0 (digits n) = n.
Proof.
  apply digits_go_value.
  rewrite Nat2N.inj_succ, N2Nat.id, N.pow_succ_r'.
  pose proof (N.size_gt n) as Hsize.
  assert (Hle : (2 ^ N.size n <= 10 ^ N.size n)%N)
    by (apply N.pow_le_mono_l; lia).
  assert (Hpos : (0 < 10 ^ N.size n)%N) by (apply N.neq_0_lt_0, N.pow_nonzero; lia).
  lia.
Qed.

(** [scaled_round f m e] is the integer nearest to [m * 2^e * 10^f],
    the larger of the two on a tie. *)
Lemma scaled_round_nearest (f : nat) (m : positive) (e : Z) :
  let n := Z.of_N (scaled_round f m e) in
  match e with
  | Zneg k =>
      2 * (Zpos m * 10 ^ Z.of_nat f) - 2 ^ Zpos k < 2 * (n * 2 ^ Zpos k)
      /\ 2 * (n * 2 ^ Zpos k) <= 2 * (Zpos m * 10 ^ Z.of_nat f) + 2 ^ Zpos k
  | _ => n = Zpos m * 2 ^ e * 10 ^ Z.of_nat f
  end.
Proof.
  assert (Hp10 : 0 < 10 ^ Z.of_nat f) by (apply Z.pow_pos_nonneg; lia).
  destruct e as [| k | k]; cbn [scaled_round].
  - rewrite Z2N.id; lia.
  - assert (0 < 2 ^ Zpos k) by (apply Z.pow_pos_nonneg; lia).
    rewrite Z2N.id; nia.
  - rewrite Pos2Z.inj_pow.
    set (B := 2 ^ Zpos k). set (A := Zpos m * 10 ^ Z.of_nat f).
    assert (HB : 0 < B) by (apply Z.pow_pos_nonneg; lia).
    assert (HA : 0 < A) by (unfold A; nia).
    pose proof (Z.mul_div_le (2 * A + B) (2 * B) ltac:(lia)) as Hlo.
    pose proof (Z.mul_succ_div_gt (2 * A + B) (2 * B) ltac:(lia)) as Hhi.
    assert (Hq : 0 <= (2 * A + B) / (2 * B)) by (apply Z.div_pos; lia).
    rewrite Z2N.id by exact Hq. lia.
Qed.

Lemma fixed_digits_shape (f : nat) (n : N) :
  let '(a, b) := fixed_digits f n in
  a <> [] /\ all_digits a /\ all_digits b /\ length b = f.
Proof.
  unfold fixed_digits.
  set (m := (replicate (S f - length (digits n)) "0"%char ++ digits n)%list).
  assert (Hm : all_digits m).
  { apply Forall_app. split; [| apply digits_all_digits].
    apply Forall_replicate. reflexivity. }
  assert (Hlen : (S f <= length m)%nat).
  { unfold m. rewrite length_app, length_replicate.
    pose proof (digits_nonempty n). lia. }
  repeat split.
  - intros Ha. apply (f_equal length) in Ha.
    rewrite length_take in Ha. simpl in Ha. lia.
  - by apply Forall_take.
  - by apply Forall_drop.
  - rewrite length_drop. lia.
Qed.

Lemma fixed_notation_four (n : N) :
  exists a b,
    fixed_notation 4 n = string_of_list_ascii a ++ "." ++ string_of_list_ascii b
    /\ a <> [] /\ all_digits a /\ all_digits b /\ length b = 4%nat.
Proof.
  pose proof (fixed_digits_shape 4 n) as H. unfold fixed_notation.
  destruct (fixed_digits 4 n) as [a b]. exists a, b. by split.
Qed.

Lemma toFixed_four_decimals (to_string : Num -> string) (x : Num) :
  below_1e21 x = true -> four_decimals (toFixed to_string x 4).
Proof.
  intros Hx. destruct x as [s | s | | s m e]; try discriminate.
  - destruct (fixed_notation_four 0) as (a & b & E & H).
    exists EmptyString, a, b. simpl. rewrite E. split; [reflexivity |].
    split; [by left | exact H].
  - destruct (fixed_notation_four (scaled_round 4 m e)) as (a & b & E & H).
    exists (if s then "-" else EmptyString), a, b.
    unfold toFixed. rewrite Hx, E. split; [reflexivity |].
    split; [destruct s; auto | exact H].
Qed.

(* ===================================================================== *)
(** * The dashboard *)
(* ===================================================================== *)

Lemma price_outcome_frame (a : FetchOutcome) (st : State) :
  exists st1 price,
    price_outcome a st = (st1, Normal price)
    /\ document st1 = document st
    /\ forall st', snd (price_outcome a st') = Normal price.
Proof.
  unfold price_outcome, unavailable.
  destruct a as [e | r]; [by eexists _, _ |].
  destruct (json_result r) as [data | e]; by eexists _, _.
Qed.

Lemma supply_outcome_frame (a : FetchOutcome) (st : State) :
  exists st2 supply,
    supply_outcome VNum a st = (st2, Normal supply)
    /\ document st2 = document st
    /\ (supply = VNull \/ exists x, supply = VNum x)
    /\ forall st', snd (supply_outcome VNum a st') = Normal supply.
Proof.
  unfold supply_outcome, unavailable.
  destruct a as [e | r]; [by eexists _, _; repeat split; auto |].
  destruct (ok r); [| by eexists _, _; repeat split; auto].
  destruct (json_result r) as [data | e];
    [| by eexists _, _; repeat split; auto].
  destruct (member data "result") as [res | e];
    [| by eexists _, _; repeat split; auto].
  destruct (member res "value") as [val | e];
    [| by eexists _, _; repeat split; auto].
  destruct (member val "uiAmountString") as [u | e];
    eexists _, _; repeat split; eauto.
Qed.

(** The price write: what it leaves in the document and how it
    completes. *)
Lemma write_price_number (x : Num) (h : Host) (st : State) (old : string) :
  document st !! "weed-price" = Some old ->
  write_price (VNum x) h st
  = ({| console := console st;
        document := <["weed-price" := "$" ++ toFixed (NumberToString h) x 4]>
                      (document st) |}, Normal tt).
Proof.
  intros Hel. unfold write_price, bind, getElementById, call_toFixed,
    set_textContent. cbn [Main.not_null]. rewrite Hel. reflexivity.
Qed.

Lemma write_price_absent (price : Value) (h : Host) (st : State) :
  document st !! "weed-price" = None ->
  write_price price h st = (st, Normal tt).
Proof.
  intros Hel. unfold write_price, bind, getElementById, ret.
  destruct (Main.not_null price); [| reflexivity].
  rewrite Hel. reflexivity.
Qed.

Lemma write_price_null (h : Host) (st : State) :
  write_price VNull h st = (st, Normal tt).
Proof. reflexivity. Qed.

Lemma write_price_elsewhere (price : Value) (h : Host) (st : State)
  (id : string) :
  id <> "weed-price" ->
  document (fst (write_price price h st)) !! id = document st !! id.
Proof.
  intros Hid. unfold write_price, bind, getElementById, call_toFixed,
    set_textContent, ret.
  destruct (Main.not_null price); [| reflexivity].
  destruct (document st !! "weed-price"); [| reflexivity].
  destruct price; try reflexivity.
  cbn [fst document]. by rewrite lookup_insert_ne.
Qed.

(** The supply write, for what [fetchWeedSupply] can return. *)
Lemma write_supply_null (h : Host) (st : State) :
  write_supply VNull h st = (st, Normal tt).
Proof. reflexivity. Qed.

Lemma write_supply_number (x : Num) (h : Host) (st : State) :
  exists st',
    write_supply (VNum x) h st = (st', Normal tt)
    /\ forall id, id <> "current-supply" ->
                  document st' !! id = document st !! id.
Proof.
  unfold write_supply, bind, getElementById, call_toLocaleString,
    set_textContent, ret. cbn [Main.not_null is_nullish].
  destruct (document st !! "current-supply").
  - eexists. split; [reflexivity |]. intros id Hid. cbn [document].
    by rewrite lookup_insert_ne.
  - eexists. split; [reflexivity |]. done.
Qed.

Lemma write_supply_settles (supply : Value) (h : Host) (st : State) :
  supply = VNull \/ (exists x, supply = VNum x) ->
  exists st',
    write_supply supply h st = (st', Normal tt)
    /\ forall id, id <> "current-supply" ->
                  document st' !! id = document st !! id.
Proof.
  intros [-> | [x ->]].
  - exists st. split; [apply write_supply_null | done].
  - apply write_supply_number.
Qed.

(** [updateDashboard] after its two fetches: the writes run on a state
    with the document it started from. *)
Lemma updateDashboard_run (h : Host) (st : State) :
  exists st2 price supply,
    Main.updateDashboard h st
    = (write_price price ;; write_supply supply) h st2
    /\ document st2 = document st
    /\ (forall st', snd (Main.fetchWeedPrice h st') = Normal price)
    /\ (forall st', snd (Main.fetchWeedSupply h st') = Normal supply)
    /\ (supply = VNull \/ exists x, supply = VNum x).
Proof.
  destruct (price_outcome_frame (net h browser_price_request) st)
    as (st1 & price & E1 & D1 & R1).
  destruct (supply_outcome_frame (net h browser_supply_request) st1)
    as (st2 & supply & E2 & D2 & S2 & R2).
  exists st2, price, supply. repeat split.
  - rewrite updateDashboard_unfold. unfold bind at 1 2.
    rewrite fetchWeedPrice_run, E1, fetchWeedSupply_run, E2. reflexivity.
  - congruence.
  - intros st'. by rewrite fetchWeedPrice_run.
  - intros st'. by rewrite fetchWeedSupply_run.
  - exact S2.
Qed.

Lemma write_price_not_number (price : Value) (h : Host) (st : State) :
  (forall x, price <> VNum x) -> fst (write_price price h st) = st.
Proof.
  intros Hprice. unfold write_price, bind, getElementById, call_toFixed, ret.
  destruct (Main.not_null price); [| reflexivity].
  destruct (document st !! "weed-price"); [| reflexivity].
  destruct price; try reflexivity. by destruct (Hprice x).
Qed.

Lemma write_price_text (price : Value) (h : Host) (st : State) :
  text_of "weed-price" (fst (write_price price h st)) = text_of "weed-price" st
  \/ exists x,
       price = VNum x
       /\ write_price price h st
          = ({| console := console st;
                document :=
                  <["weed-price" := "$" ++ toFixed (NumberToString h) x 4]>
                    (document st) |}, Normal tt).
Proof.
  destruct price as [| | b | x | s | l | o];
    try (left; by rewrite write_price_not_number).
  destruct (document st !! "weed-price") as [old |] eqn:Hel.
  - right. exists x. split; [reflexivity |]. by eapply write_price_number.
  - left. by rewrite write_price_absent.
Qed.

Lemma write_supply_text (x : Num) (h : Host) (st : State) :
  text_of "current-supply" (fst (write_supply (VNum x) h st))
  = match text_of "current-supply" st with
    | Some _ => Some (toLocaleString h (VNum x))
    | None => None
    end.
Proof.
  unfold write_supply, bind, getElementById, call_toLocaleString,
    set_textContent, ret, text_of. cbn [Main.not_null is_nullish].
  destruct (document st !! "current-supply") eqn:Hel; cbn [fst document].
  - by rewrite lookup_insert_eq.
  - exact Hel.
Qed.

(** C7, as the code has it. When the price [updateDashboard] obtains is
    a Number [x] and the document has the price element, that element's
    text becomes "$" followed by [x.toFixed(4)], which for
    [|x| < 10^21] is a fixed notation with exactly four decimals, and
    [updateDashboard] completes normally.  When the element is absent,
    whatever the non-null price, nothing is written for it and
    [updateDashboard] completes normally. *)
Theorem price_display_written (h : Host) (st : State) (price : Value) :
  snd (Main.fetchWeedPrice h st) = Normal price ->
  price <> VNull ->
  (forall x old,
      price = VNum x ->
      text_of "weed-price" st = Some old ->
      text_of "weed-price" (fst (Main.updateDashboard h st))
      = Some ("$" ++ toFixed (NumberToString h) x 4)
      /\ snd (Main.updateDashboard h st) = Normal tt
      /\ (below_1e21 x = true ->
          four_decimals (toFixed (NumberToString h) x 4)))
  /\ (text_of "weed-price" st = None ->
      text_of "weed-price" (fst (Main.updateDashboard h st)) = None
      /\ snd (Main.updateDashboard h st) = Normal tt).
Proof.
  intros Hprice Hnn.
  destruct (updateDashboard_run h st)
    as (st2 & price' & supply & E & D & Rp & Rs & S).
  assert (price' = price) by (specialize (Rp st); congruence). subst price'.
  rewrite E. unfold text_of. split.
  - intros x old -> Hel. rewrite <- D in Hel.
    destruct (write_supply_settles supply h
                {| console := console st2;
                   document := <["weed-price" := "$" ++ toFixed (NumberToString h) x 4]>
                                 (document st2) |} S)
      as (st' & Hsupply & Hframe).
    assert (Hrun : (write_price (VNum x) ;; write_supply supply) h st2
                   = (st', Normal tt)).
    { unfold bind. by rewrite (write_price_number x h st2 old Hel). }
    rewrite Hrun. split; [| split].
    + cbn [fst]. rewrite Hframe by done. cbn [document].
      by rewrite lookup_insert_eq.
    + reflexivity.
    + apply toFixed_four_decimals.
  - intros Hel. rewrite <- D in Hel.
    destruct (write_supply_settles supply h st2 S) as (st' & Hsupply & Hframe).
    assert (Hrun : (write_price price ;; write_supply supply) h st2
                   = (st', Normal tt)).
    { unfold bind. by rewrite (write_price_absent price h st2 Hel). }
    rewrite Hrun. split; [| reflexivity].
    cbn [fst]. by rewrite Hframe.
Qed.

(** C8. When [fetchWeedSupply] returns [null] the supply element keeps its
    text, and when [fetchWeedPrice] returns [null] the price element keeps
    its text.  Whatever was fetched, the price element either keeps its
    text or holds the formatted price Number, and the supply element
    either keeps its text or holds the rendering of the supply Number. *)
Theorem failed_fetch_leaves_display (h : Host) (st : State) :
  (snd (Main.fetchWeedSupply h st) = Normal VNull ->
   text_of "current-supply" (fst (Main.updateDashboard h st))
   = text_of "current-supply" st)
  /\ (snd (Main.fetchWeedPrice h st) = Normal VNull ->
      text_of "weed-price" (fst (Main.updateDashboard h st))
      = text_of "weed-price" st)
  /\ (text_of "weed-price" (fst (Main.updateDashboard h st))
      = text_of "weed-price" st
      \/ exists x,
           snd (Main.fetchWeedPrice h st) = Normal (VNum x)
           /\ text_of "weed-price" (fst (Main.updateDashboard h st))
              = Some ("$" ++ toFixed (NumberToString h) x 4))
  /\ (text_of "current-supply" (fst (Main.updateDashboard h st))
      = text_of "current-supply" st
      \/ exists x,
           snd (Main.fetchWeedSupply h st) = Normal (VNum x)
           /\ text_of "current-supply" (fst (Main.updateDashboard h st))
              = Some (toLocaleString h (VNum x))).
Proof.
  destruct (updateDashboard_run h st)
    as (st2 & price & supply & E & D & Rp & Rs & S).
  rewrite E, (Rp st), (Rs st). unfold text_of. rewrite bind_run.
  pose proof (write_price_elsewhere price h st2 "current-supply") as Hw.
  pose proof (write_price_text price h st2) as Hp. unfold text_of in Hp.
  pose proof (write_price_null h st2) as Hnull.
  destruct (write_price price h st2) as [st3 [[] | e]] eqn:W; cbn [fst] in *.
  - (* the price write completed *)
    destruct (write_supply_settles supply h st3 S) as (st' & Hs & Hframe).
    assert (Hprice :
              document (fst (write_supply supply h st3)) !! "weed-price"
              = document st3 !! "weed-price").
    { rewrite Hs. cbn [fst]. by apply Hframe. }
    rewrite Hprice. split; [| split; [| split]].
    + intros [= ->]. rewrite write_supply_null. cbn [fst].
      rewrite Hw by done. by rewrite D.
    + intros [= ->]. rewrite W in Hnull. injection Hnull as ->. by rewrite D.
    + destruct Hp as [Hkeep | (x & -> & Hwritten)].
      * left. by rewrite Hkeep, D.
      * right. exists x. split; [reflexivity |].
        injection Hwritten as ->. cbn [document].
        by rewrite lookup_insert_eq.
    + destruct S as [-> | [x ->]].
      * left. rewrite write_supply_null. cbn [fst]. rewrite Hw by done.
        by rewrite D.
      * pose proof (write_supply_text x h st3) as Ht. unfold text_of in Ht.
        rewrite Ht, Hw by done. rewrite D.
        destruct (document st !! "current-supply"); [right | left]; eauto.
  - (* the price write threw *)
    split; [| split; [| split]].
    + intros _. rewrite Hw by done. by rewrite D.
    + intros [= ->]. rewrite W in Hnull. discriminate.
    + destruct Hp as [Hkeep | (x & -> & Hwritten)]; [| discriminate].
      left. by rewrite Hkeep, D.
    + left. rewrite Hw by done. by rewrite D.
Qed.

(* ===================================================================== *)
(** * Concrete runs *)
(* ===================================================================== *)

Import Reference.

(** The price service answers [{"data": {"<mint>": {"price": 0.0042}}}]. *)
Lemma positive_price_returned_witness :
  let h := reference_host (respond 200 (price_body (VNum n0_0042)))
             failed_to_fetch in
  Service.getWeedPrice h empty_page = (empty_page, Normal (VNum n0_0042))
  /\ Main.fetchWeedPrice h empty_page = (empty_page, Normal (VNum n0_0042)).
Proof.
  intros h. split.
  - apply (positive_price_returned Service.getWeedPrice service_price_request
             h empty_page
             {| status := 200;
                json_result := Normal (price_body (VNum n0_0042)) |}
             (price_body (VNum n0_0042)) n0_0042).
    + left. reflexivity.
    + reflexivity.
    + reflexivity.
    + reflexivity.
    + reflexivity.
  - apply (positive_price_returned Main.fetchWeedPrice browser_price_request
             h empty_page
             {| status := 200;
                json_result := Normal (price_body (VNum n0_0042)) |}
             (price_body (VNum n0_0042)) n0_0042).
    + right. left. reflexivity.
    + reflexivity.
    + reflexivity.
    + reflexivity.
    + reflexivity.
Defined.

(** The price service quotes a price of 0. *)
Lemma missing_or_falsy_price_is_null_witness :
  let h := reference_host (respond 200 (price_body (VNum (of_Z 0))))
             failed_to_fetch in
  Service.getWeedPrice h empty_page = (empty_page, Normal VNull).
Proof.
  intros h.
  apply (missing_or_falsy_price_is_null Service.getWeedPrice
           service_price_request h empty_page
           {| status := 200;
              json_result := Normal (price_body (VNum (of_Z 0))) |}
           (price_body (VNum (of_Z 0)))).
  - left. reflexivity.
  - reflexivity.
  - reflexivity.
  - right. right. left. reflexivity.
Defined.

(** The price service quotes the price as the string "0.0042", or as
    the negative Number -1.5. *)
Lemma truthy_price_returned_unchanged_witness :
  let h := reference_host (respond 200 (price_body (VStr "0.0042")))
             failed_to_fetch in
  let h' := reference_host
              (respond 200 (price_body (VNum (of_decimal true 15 (-1)))))
              failed_to_fetch in
  Main.fetchWeedPrice h empty_page = (empty_page, Normal (VStr "0.0042"))
  /\ Service.getWeedPrice h' empty_page
     = (empty_page, Normal (VNum (of_decimal true 15 (-1)))).
Proof.
  intros h h'. split.
  - apply (truthy_price_returned_unchanged Main.fetchWeedPrice
             browser_price_request h empty_page
             {| status := 200;
                json_result := Normal (price_body (VStr "0.0042")) |}
             (price_body (VStr "0.0042")) (VStr "0.0042")).
    + right. left. reflexivity.
    + reflexivity.
    + reflexivity.
    + reflexivity.
    + reflexivity.
  - apply (truthy_price_returned_unchanged Service.getWeedPrice
             service_price_request h' empty_page
             {| status := 200;
                json_result :=
                  Normal (price_body (VNum (of_decimal true 15 (-1)))) |}
             (price_body (VNum (of_decimal true 15 (-1))))
             (VNum (of_decimal true 15 (-1)))).
    + left. reflexivity.
    + reflexivity.
    + reflexivity.
    + reflexivity.
    + reflexivity.
Defined.

(** The RPC endpoint answers
    [{"result": {"value": {"uiAmountString": "123456789.123"}}}]. *)
Lemma supply_fetchers_on_success_witness :
  let h := reference_host failed_to_fetch
             (respond 200 (supply_body (VStr "123456789.123"))) in
  Service.getTokenSupply h empty_page
  = (empty_page,
     Normal (supply_info (S754_finite false 8285044871132086 (-26))))
  /\ Main.fetchWeedSupply h empty_page
     = (empty_page, Normal (VNum (S754_finite false 8285044871132086 (-26)))).
Proof.
  intros h.
  destruct (supply_fetchers_on_success h empty_page
              {| status := 200;
                 json_result := Normal (supply_body (VStr "123456789.123")) |}
              (supply_body (VStr "123456789.123")) "123456789.123"
              eq_refl eq_refl eq_refl eq_refl)
    as (Hservice & Hbrowser & _).
  split.
  - exact (Hservice eq_refl).
  - exact (Hbrowser eq_refl).
Defined.

(** C1 fails as stated on the browser's fetcher: on that same response
    [fetchWeedSupply] returns the Number itself, not a record with a
    [total]. *)
Lemma fetchWeedSupply_returns_bare_number :
  let r := {| status := 200;
              json_result := Normal (supply_body (VStr "123456789.123")) |} in
  let h := reference_host failed_to_fetch (Resolved r) in
  let p := parseFloat_string "123456789.123" in
  net h browser_supply_request = Resolved r
  /\ ok r = true
  /\ uiAmountString_of (supply_body (VStr "123456789.123"))
     = VStr "123456789.123"
  /\ is_NaN p = false
  /\ Main.fetchWeedSupply h empty_page = (empty_page, Normal (VNum p))
  /\ Main.fetchWeedSupply h empty_page <> (empty_page, Normal (supply_info p))
  /\ field "total" (VNum p) = VUndefined.
Proof.
  intros r h p. repeat split. intros H. discriminate H.
Qed.

(** The RPC endpoint answers HTTP 429. *)
Lemma non_success_status_is_null_witness :
  let h := reference_host failed_to_fetch
             (respond 429 (supply_body (VStr "123456789.123"))) in
  snd (Service.getTokenSupply h empty_page) = Normal VNull
  /\ Service.getTokenSupply h empty_page
     = unavailable supply_diagnostic (Error "HTTP 429") empty_page.
Proof.
  intros h.
  apply (non_success_status_is_null Service.getTokenSupply
           service_supply_request supply_info h empty_page
           {| status := 429;
              json_result := Normal (supply_body (VStr "123456789.123")) |}).
  - left. reflexivity.
  - reflexivity.
  - simpl. lia.
Defined.

(** The price request is rejected; the RPC body is not JSON. *)
Lemma fetchers_never_raise_witness :
  let h := reference_host failed_to_fetch not_json in
  (exists e, Service.getWeedPrice h empty_page
             = unavailable price_diagnostic e empty_page)
  /\ (exists e, Main.fetchWeedSupply h empty_page
                = unavailable supply_diagnostic e empty_page).
Proof.
  intros h. split.
  - apply (fetchers_never_raise Service.getWeedPrice
             (fun _ => service_price_request) price_diagnostic h empty_page).
    + left. reflexivity.
    + left. exists (FetchError "Failed to fetch"). reflexivity.
  - apply (fetchers_never_raise Main.fetchWeedSupply
             (fun _ => browser_supply_request) supply_diagnostic h empty_page).
    + right. right. right. left. reflexivity.
    + right. eexists _, _. split; reflexivity.
Defined.

(** The price service quotes 0.0042 and the page has both elements: the
    price element shows "$0.0042". *)
Lemma price_display_written_witness :
  let h := reference_host (respond 200 (price_body (VNum n0_0042)))
             (respond 200 (supply_body (VStr "123456789.123"))) in
  text_of "weed-price" (fst (Main.updateDashboard h dashboard_page))
  = Some "$0.0042"
  /\ snd (Main.updateDashboard h dashboard_page) = Normal tt
  /\ four_decimals "0.0042".
Proof.
  intros h.
  assert (Hprice : snd (Main.fetchWeedPrice h dashboard_page)
                   = Normal (VNum n0_0042)) by reflexivity.
  assert (Hnn : VNum n0_0042 <> VNull) by discriminate.
  destruct (price_display_written h dashboard_page (VNum n0_0042) Hprice Hnn)
    as [Hpresent _].
  destruct (Hpresent n0_0042 "Loading..." eq_refl eq_refl)
    as (Htext & Hdone & Hfixed).
  split; [exact Htext |]. split; [exact Hdone |].
  exact (Hfixed eq_refl).
Defined.

(** C7 fails as stated when the price is not a Number: quoted as the
    string "0.0042", the price comes back non-null, yet the price element
    keeps its text and [updateDashboard] ends in a TypeError.  It also
    fails for a Number from [10^21] on, which [toFixed] prints without
    decimals. *)
Lemma string_price_not_displayed :
  let h := reference_host (respond 200 (price_body (VStr "0.0042")))
             (respond 200 (supply_body (VStr "123456789.123"))) in
  let h' := reference_host
              (respond 200 (price_body (VNum (of_decimal false 1 21))))
              (respond 200 (supply_body (VStr "123456789.123"))) in
  snd (Main.fetchWeedPrice h dashboard_page) = Normal (VStr "0.0042")
  /\ VStr "0.0042" <> VNull
  /\ text_of "weed-price" dashboard_page = Some "Loading..."
  /\ text_of "weed-price" (fst (Main.updateDashboard h dashboard_page))
     = Some "Loading..."
  /\ text_of "weed-price" (fst (Main.updateDashboard h dashboard_page))
     <> Some "$0.0042"
  /\ snd (Main.updateDashboard h dashboard_page)
     = Throw (TypeError "toFixed is not a function")
  /\ text_of "weed-price" (fst (Main.updateDashboard h' dashboard_page))
     = Some "$1e+21".
Proof.
  intros h h'. repeat split; discriminate.
Qed.

(** The RPC endpoint answers HTTP 429: the supply element keeps its
    text while the price element is updated. *)
Lemma failed_fetch_leaves_display_witness :
  let h := reference_host (respond 200 (price_body (VNum n0_0042)))
             (respond 429 VNull) in
  text_of "current-supply" (fst (Main.updateDashboard h dashboard_page))
  = Some "Loading...".
Proof.
  intros h.
  destruct (failed_fetch_leaves_display h dashboard_page) as [Hsupply _].
  exact (Hsupply eq_refl).
Defined.


(* ===================================================================== *)
(** * The built-ins on known values *)
(* ===================================================================== *)

Example parseFloat_tenth :
  parseFloat_string "0.1" = S754_finite false 7205759403792794 (-56).
Proof. reflexivity. Qed.

Example parseFloat_prefix :
  parseFloat_string "  -1.5e3 tokens" = S754_finite true 6597069766656000 (-42)
  /\ parseFloat_string "1e" = of_Z 1
  /\ parseFloat_string "-Infinity!" = S754_infinity true
  /\ parseFloat_string "." = NaN
  /\ parseFloat_string "0x10" = S754_zero false.
Proof. repeat split. Qed.

Example parseFloat_rounds_to_nearest_even :
  parseFloat_string "9007199254740993" = of_Z 9007199254740992
  /\ parseFloat_string "1.7976931348623159e308" = S754_infinity false
  /\ parseFloat_string "2.4703282292062327e-324" = S754_zero false
  /\ parseFloat_string "2.4703282292062328e-324" = S754_finite false 1 (-1074).
Proof. repeat split. Qed.

Example parseFloat_not_a_string :
  parseFloat VUndefined = NaN
  /\ parseFloat (VNum (S754_zero true)) = S754_zero false
  /\ parseFloat (VArr [VStr "12"; VStr "7"]) = of_Z 12
  /\ parseFloat (VObj []) = NaN.
Proof. repeat split. Qed.

Example toFixed_on_known_values :
  toFixed number_to_string (parseFloat_string "1.005") 2 = "1.00"
  /\ toFixed number_to_string (parseFloat_string "2.5") 0 = "3"
  /\ toFixed number_to_string (parseFloat_string "-0.00001") 4 = "-0.0000"
  /\ toFixed number_to_string (parseFloat_string "0.00005") 4 = "0.0001"
  /\ toFixed number_to_string (parseFloat_string "123456789.123") 4
     = "123456789.1230"
  /\ toFixed number_to_string (parseFloat_string "-1e21") 4 = "-1e+21".
Proof. repeat split. Qed.

Example number_to_string_on_known_values :
  map (fun s => number_to_string (parseFloat_string s))
      ["0.0042"; "1e21"; "123456789012345680000"; "1e-7"; "0.000001";
       "0.30000000000000004"; "5e-324"; "-2.5"]
  = ["0.0042"; "1e+21"; "123456789012345680000"; "1e-7"; "0.000001";
     "0.30000000000000004"; "5e-324"; "-2.5"].
Proof. reflexivity. Qed.

(** Scenario 2: the supply element shows the grouped supply. *)
Example dashboard_shows_price_and_supply :
  let h := reference_host (respond 200 (price_body (VNum n0_0042)))
             (respond 200 (supply_body (VStr "123456789.123"))) in
  let st := fst (Main.updateDashboard h dashboard_page) in
  text_of "weed-price" st = Some "$0.0042"
  /\ text_of "current-supply" st = Some "123,456,789.123"
  /\ console st = [].
Proof. repeat split. Qed.

(** Scenario 4: without the display elements nothing is written. *)
Example dashboard_without_elements :
  let h := reference_host (respond 200 (price_body (VNum n0_0042)))
             (respond 200 (supply_body (VStr "123456789.123"))) in
  Main.updateDashboard h empty_page = (empty_page, Normal tt).
Proof. reflexivity. Qed.

(* ===================================================================== *)
(** * Further properties of the fetchers *)
(* ===================================================================== *)






(** X2. The price fetchers never look at the HTTP status: two responses
    with the same body give the same result whatever their statuses,
    and on every body that parses as JSON, whatever its shape, nothing is
    logged. *)
Theorem price_fetchers_ignore_status (f : M Value) (req : Request)
  (h h' : Host) (st : State) (r r' : Response) :
  In (f, req) price_fetchers ->
  net h req = Resolved r ->
  net h' req = Resolved r' ->
  json_result r = json_result r' ->
  f h st = f h' st
  /\ (forall data, json_result r = Normal data -> fst (f h st) = st).
Proof.
  intros Hf Hnet Hnet' Hjson.
  rewrite !(price_fetchers_run f req Hf). unfold price_outcome.
  rewrite Hnet, Hnet', <- Hjson. split; [reflexivity |].
  intros data ->. reflexivity.
Qed.

(** X3. What a price fetcher returns is [null] or truthy: never
    [undefined], [0], [NaN], [false] or the empty string. *)
Theorem price_result_null_or_truthy (f : M Value) (req : Request)
  (h : Host) (st : State) :
  In (f, req) price_fetchers ->
  exists v,
    snd (f h st) = Normal v
    /\ (v = VNull \/ ToBoolean v = true)
    /\ v <> VUndefined
    /\ v <> VBool false
    /\ v <> VStr EmptyString
    /\ forall x, v = VNum x -> x <> NaN /\ forall s, x <> S754_zero s.
Proof.
  intros Hf. rewrite (price_fetchers_run f req Hf).
  assert (H : exists v, snd (price_outcome (net h req) st) = Normal v
                        /\ (v = VNull \/ ToBoolean v = true)).
  { destruct (price_outcome_settles (net h req) st)
      as [(v & -> & Hv) | [e ->]]; eauto. }
  destruct H as (v & Hrun & Hv). exists v.
  split; [exact Hrun |]. split; [exact Hv |].
  destruct Hv as [-> | Hv].
  - repeat split; discriminate.
  - split; [by intros -> |]. split; [by intros -> |]. split; [by intros -> |].
    intros x ->. split; [by intros -> | by intros s ->].
Qed.

(** X4. Each fetcher consults the network at its own request only: two
    hosts that send it the same request and answer that request alike
    give the same result and log, however else they differ. *)
Theorem fetchers_read_one_request (f : M Value) (req : Host -> Request)
  (msg : string) (h h' : Host) (st : State) :
  In (f, req, msg) fetchers ->
  req h = req h' ->
  net h (req h) = net h' (req h') ->
  f h st = f h' st.
Proof.
  intros Hf Hreq Hnet.
  destruct Hf as [E | [E | [E | [E | []]]]]; inversion E; subst f req msg.
  - by rewrite !getWeedPrice_run, Hnet.
  - by rewrite !fetchWeedPrice_run, Hnet.
  - by rewrite !getTokenSupply_run, Hnet.
  - by rewrite !fetchWeedSupply_run, Hnet.
Qed.

Lemma supply_outcome_repack (pack : Num -> Value) (a : FetchOutcome)
  (st : State) :
  supply_outcome pack a st
  = (fst (supply_outcome VNum a st),
     match snd (supply_outcome VNum a st) with
     | Normal (VNum x) => Normal (pack x)
     | c => c
     end).
Proof.
  unfold supply_outcome, unavailable.
  destruct a as [e | r]; [reflexivity |].
  destruct (ok r); [| reflexivity].
  destruct (json_result r) as [data | e]; [| reflexivity].
  destruct (member data "result") as [res | e]; [| reflexivity].
  destruct (member res "value") as [val | e]; [| reflexivity].
  destruct (member val "uiAmountString") as [u | e]; reflexivity.
Qed.

Lemma RPC_ENDPOINT_default (h : Host) :
  process_env h "SOLANA_RPC_ENDPOINT" = None
  \/ process_env h "SOLANA_RPC_ENDPOINT" = Some EmptyString ->
  service_supply_request h = browser_supply_request.
Proof.
  intros Henv. unfold service_supply_request, browser_supply_request,
    Service.RPC_ENDPOINT.
  by destruct Henv as [-> | ->].
Qed.

Lemma RPC_ENDPOINT_override (h : Host) (s : string) :
  process_env h "SOLANA_RPC_ENDPOINT" = Some s -> s <> EmptyString ->
  service_supply_request h = rpc_request s.
Proof.
  intros Henv Hs. unfold service_supply_request, Service.RPC_ENDPOINT.
  rewrite Henv. by destruct s.
Qed.

(** X5. A non-empty [SOLANA_RPC_ENDPOINT] redirects [getTokenSupply]
    and nothing else: with the variable set to [s], it behaves on the
    answer to the request posted to [s] exactly as it behaves, with the
    variable unset or empty, on the answer from the public endpoint. *)
Theorem getTokenSupply_endpoint_override (h h' : Host) (st : State)
  (s : string) :
  process_env h "SOLANA_RPC_ENDPOINT" = Some s ->
  s <> EmptyString ->
  process_env h' "SOLANA_RPC_ENDPOINT" = None
  \/ process_env h' "SOLANA_RPC_ENDPOINT" = Some EmptyString ->
  net h (rpc_request s)
  = net h' (rpc_request "https://api.mainnet-beta.solana.com") ->
  Service.getTokenSupply h st = Service.getTokenSupply h' st.
Proof.
  intros Henv Hs Henv' Hnet.
  rewrite !getTokenSupply_run.
  rewrite (RPC_ENDPOINT_override h s Henv Hs).
  rewrite (RPC_ENDPOINT_default h' Henv').
  unfold browser_supply_request. by rewrite Hnet.
Qed.

(** X6. With [SOLANA_RPC_ENDPOINT] unset or empty the two supply
    fetchers send the same request and agree: [getTokenSupply] logs what
    [fetchWeedSupply] logs, returns [null] where it returns [null], and
    otherwise returns the record around the Number it returns. *)
Theorem supply_fetchers_agree_by_default (h : Host) (st : State) :
  process_env h "SOLANA_RPC_ENDPOINT" = None
  \/ process_env h "SOLANA_RPC_ENDPOINT" = Some EmptyString ->
  fst (Service.getTokenSupply h st) = fst (Main.fetchWeedSupply h st)
  /\ (snd (Service.getTokenSupply h st) = Normal VNull
      <-> snd (Main.fetchWeedSupply h st) = Normal VNull)
  /\ (forall x,
        snd (Service.getTokenSupply h st) = Normal (supply_info x)
        <-> snd (Main.fetchWeedSupply h st) = Normal (VNum x)).
Proof.
  intros Henv.
  rewrite getTokenSupply_run, fetchWeedSupply_run.
  rewrite (RPC_ENDPOINT_default h Henv).
  rewrite (supply_outcome_repack supply_info). cbn [fst snd].
  split; [reflexivity |].
  destruct (supply_outcome_frame (net h browser_supply_request) st)
    as (st2 & supply & -> & _ & [-> | [y ->]] & _); cbn [snd].
  - split; [done |]. intros x. split; discriminate.
  - split; [split; discriminate |].
    intros x. split; intros [= E]; by rewrite E.
Qed.

(* ===================================================================== *)
(** * Further properties of the dashboard *)
(* ===================================================================== *)

(** The state in which [updateDashboard] starts writing. *)
Lemma updateDashboard_steps (h : Host) (st : State) :
  exists price supply,
    (forall st', snd (Main.fetchWeedPrice h st') = Normal price)
    /\ (forall st', snd (Main.fetchWeedSupply h st') = Normal supply)
    /\ (price = VNull \/ ToBoolean price = true)
    /\ (supply = VNull \/ exists x, supply = VNum x)
    /\ Main.updateDashboard h st
       = (write_price price ;; write_supply supply) h
           (fst (Main.fetchWeedSupply h (fst (Main.fetchWeedPrice h st)))).
Proof.
  destruct (price_outcome_frame (net h browser_price_request) st)
    as (st1 & price & E1 & D1 & R1).
  destruct (supply_outcome_frame (net h browser_supply_request) st1)
    as (st2 & supply & E2 & D2 & S2 & R2).
  exists price, supply. repeat split.
  - intros st'. by rewrite fetchWeedPrice_run.
  - intros st'. by rewrite fetchWeedSupply_run.
  - destruct (price_outcome_settles (net h browser_price_request) st)
      as [(v & Ev & Hv) | [e Ee]].
    + rewrite Ev in E1. by injection E1 as _ <-.
    + rewrite Ee in E1. injection E1 as _ <-. by left.
  - exact S2.
  - rewrite updateDashboard_unfold. unfold bind at 1 2.
    rewrite !fetchWeedPrice_run, E1. cbn [fst].
    rewrite !fetchWeedSupply_run, E2. reflexivity.
Qed.

(** The two fetches leave the document alone and append to the console
    the price diagnostic, if any, then the supply diagnostic, if any. *)
Lemma fetched_state (h : Host) (st : State) :
  let st2 := fst (Main.fetchWeedSupply h (fst (Main.fetchWeedPrice h st))) in
  document st2 = document st
  /\ exists lp ls,
       console st2 = (console st ++ lp ++ ls)%list
       /\ (lp = [] \/ exists e, lp = [(price_diagnostic, e)]
                                /\ snd (Main.fetchWeedPrice h st) = Normal VNull)
       /\ (ls = [] \/ exists e, ls = [(supply_diagnostic, e)]
                                /\ snd (Main.fetchWeedSupply h st) = Normal VNull).
Proof.
  intros st2. subst st2.
  assert (Hs : forall st1,
             (fst (Main.fetchWeedSupply h st1) = st1
              \/ exists e, fst (Main.fetchWeedSupply h st1)
                           = logged supply_diagnostic e st1
                           /\ snd (Main.fetchWeedSupply h st) = Normal VNull)).
  { intros st1. rewrite !fetchWeedSupply_run.
    destruct (supply_outcome_settles VNum (net h browser_supply_request) st1)
      as [[x ->] | [e E]]; [by left |].
    right. exists e. rewrite E. split; [reflexivity |].
    destruct (supply_outcome_frame (net h browser_supply_request) st1)
      as (st' & supply & E' & _ & _ & R).
    rewrite (R st). rewrite E in E'. by injection E' as _ <-. }
  assert (Hp : fst (Main.fetchWeedPrice h st) = st
               \/ exists e, fst (Main.fetchWeedPrice h st)
                            = logged price_diagnostic e st
                            /\ snd (Main.fetchWeedPrice h st) = Normal VNull).
  { rewrite !fetchWeedPrice_run.
    destruct (price_outcome_settles (net h browser_price_request) st)
      as [(v & -> & _) | [e ->]]; [by left |].
    right. by exists e. }
  destruct Hp as [Ep | (e & Ep & Hpn)]; rewrite Ep.
  - destruct (Hs st) as [Es | (e' & Es & Hsn)]; rewrite Es;
      (split; [reflexivity |]).
    + exists [], []. rewrite !app_nil_r. repeat split; by left.
    + exists [], [(supply_diagnostic, e')]. repeat split; [by left |].
      right. by exists e'.
  - destruct (Hs (logged price_diagnostic e st)) as [Es | (e' & Es & Hsn)];
      rewrite Es; (split; [reflexivity |]).
    + exists [(price_diagnostic, e)], []. rewrite app_nil_r.
      repeat split; [| by left]. right. by exists e.
    + exists [(price_diagnostic, e)], [(supply_diagnostic, e')].
      cbn [logged console]. rewrite <- app_assoc.
      repeat split; right; eauto.
Qed.

(** The three ways the price write can go: nothing to write, the text
    written, or a TypeError before anything is written. *)
Lemma write_price_cases (price : Value) (h : Host) (st : State) :
  (write_price price h st = (st, Normal tt)
   /\ (price = VNull \/ document st !! "weed-price" = None))
  \/ (exists x old,
        price = VNum x
        /\ document st !! "weed-price" = Some old
        /\ write_price price h st
           = ({| console := console st;
                 document :=
                   <["weed-price" := "$" ++ toFixed (NumberToString h) x 4]>
                     (document st) |}, Normal tt))
  \/ (write_price price h st
      = (st, Throw (TypeError "toFixed is not a function"))
      /\ price <> VNull
      /\ (forall x, price <> VNum x)
      /\ is_Some (document st !! "weed-price")).
Proof.
  destruct (document st !! "weed-price") as [old |] eqn:Hel.
  - destruct price as [| | b | x | s | l | o].
    2: { left. split; [reflexivity | by left]. }
    3: { right. left. exists x, old. repeat split.
         by apply (write_price_number x h st old). }
    all: right; right; split;
      [unfold write_price, bind, getElementById, call_toFixed;
       cbn [Main.not_null]; by rewrite Hel
      | repeat split; try discriminate; eauto ].
  - left. split; [by apply write_price_absent | by right].
Qed.

(** The two ways the supply write can go for what [fetchWeedSupply]
    returns: nothing to write, or the text written. *)
Lemma write_supply_cases (supply : Value) (h : Host) (st : State) :
  supply = VNull \/ (exists x, supply = VNum x) ->
  (write_supply supply h st = (st, Normal tt)
   /\ (supply = VNull \/ document st !! "current-supply" = None))
  \/ (exists x old,
        supply = VNum x
        /\ document st !! "current-supply" = Some old
        /\ write_supply supply h st
           = ({| console := console st;
                 document :=
                   <["current-supply" := toLocaleString h (VNum x)]>
                     (document st) |}, Normal tt)).
Proof.
  intros [-> | [x ->]].
  - left. split; [reflexivity | by left].
  - destruct (document st !! "current-supply") as [old |] eqn:Hel.
    + right. exists x, old. repeat split.
      unfold write_supply, bind, getElementById, call_toLocaleString,
        set_textContent. cbn [Main.not_null is_nullish]. by rewrite Hel.
    + left. split; [| by right].
      unfold write_supply, bind, getElementById, ret.
      cbn [Main.not_null]. by rewrite Hel.
Qed.

Lemma insert_present_is_Some (m : gmap string string) (k id text : string) :
  is_Some (m !! k) ->
  is_Some (<[k := text]> m !! id) <-> is_Some (m !! id).
Proof.
  intros Hk. rewrite lookup_insert_is_Some. split.
  - by intros [<- | [_ H]].
  - intros H. destruct (decide (k = id)); [by left | by right].
Qed.

(** What the two writes do to a state, for what the fetchers return. *)
Lemma writes_outcome (price supply : Value) (h : Host) (st : State) :
  supply = VNull \/ (exists x, supply = VNum x) ->
  let r := (write_price price ;; write_supply supply) h st in
  console (fst r) = console st
  /\ (forall id, is_Some (document (fst r) !! id)
                 <-> is_Some (document st !! id))
  /\ (forall id, id <> "weed-price" -> id <> "current-supply" ->
                 document (fst r) !! id = document st !! id)
  /\ (snd r = Normal tt
      /\ (price = VNull \/ (exists x, price = VNum x)
          \/ document st !! "weed-price" = None)
      /\ (forall x old,
            supply = VNum x ->
            document st !! "current-supply" = Some old ->
            document (fst r) !! "current-supply"
            = Some (toLocaleString h (VNum x)))
      \/ r = (st, Throw (TypeError "toFixed is not a function"))
         /\ price <> VNull
         /\ (forall x, price <> VNum x)
         /\ is_Some (document st !! "weed-price")).
Proof.
  intros S r. subst r. rewrite bind_run.
  destruct (write_price_cases price h st)
    as [[-> Hp] | [(x & old & -> & Hel & ->) | (-> & Hthrow)]].
  - (* no price write *)
    destruct (write_supply_cases supply h st S)
      as [[-> Hs] | (y & old' & -> & Hel' & ->)]; cbn [fst snd console document].
    + repeat split; try done. left. repeat split; [tauto |].
      intros y old' -> Hel'. destruct Hs as [Hs | Hs]; congruence.
    + repeat split.
      * by apply insert_present_is_Some.
      * by apply insert_present_is_Some.
      * intros id _ Hid. by rewrite lookup_insert_ne.
      * left. repeat split; [tauto |].
        intros z old'' [= <-] _. by rewrite lookup_insert_eq.
  - (* the price written *)
    set (st1 := {| console := console st;
                   document := <["weed-price" := _]> (document st) |}).
    destruct (write_supply_cases supply h st1 S)
      as [[-> Hs] | (y & old' & -> & Hel' & ->)];
      unfold st1 in *; cbn [fst snd console document] in *.
    + repeat split.
      * by apply insert_present_is_Some.
      * by apply insert_present_is_Some.
      * intros id Hid _. by rewrite lookup_insert_ne.
      * left. repeat split; [eauto |].
        intros y old' -> Hel'. destruct Hs as [Hs | Hs]; [done |].
        rewrite lookup_insert_ne in Hs by done.
        congruence.
    + repeat split.
      * rewrite insert_present_is_Some by (rewrite Hel'; eauto).
        by apply insert_present_is_Some.
      * intros Hid. rewrite insert_present_is_Some by (rewrite Hel'; eauto).
        by apply insert_present_is_Some.
      * intros id Hid Hid'. by rewrite !lookup_insert_ne.
      * left. repeat split; [eauto |].
        intros z old'' [= <-] _. by rewrite lookup_insert_eq.
  - (* the price write threw *)
    cbn [fst snd]. repeat split; try done. right. by split.
Qed.

(** X7. [updateDashboard] ends in an exception exactly when the price
    it fetched is neither [null] nor a Number while the document has the
    price element; the exception is then the TypeError of calling
    [toFixed] on that price.  In every other case it completes normally. *)
Theorem updateDashboard_raises_iff (h : Host) (st : State) :
  ((exists e, snd (Main.updateDashboard h st) = Throw e)
   <-> (exists price,
          snd (Main.fetchWeedPrice h st) = Normal price
          /\ price <> VNull
          /\ (forall x, price <> VNum x)
          /\ is_Some (text_of "weed-price" st)))
  /\ (snd (Main.updateDashboard h st) = Normal tt
      \/ snd (Main.updateDashboard h st)
         = Throw (TypeError "toFixed is not a function")).
Proof.
  destruct (updateDashboard_steps h st) as (price & supply & Rp & Rs & _ & S & E).
  destruct (fetched_state h st) as [D _].
  set (st2 := fst (Main.fetchWeedSupply h (fst (Main.fetchWeedPrice h st)))) in *.
  destruct (writes_outcome price supply h st2 S) as (_ & _ & _ & Hout).
  rewrite E, (Rp st). unfold text_of. rewrite <- D.
  destruct Hout as [(Hdone & Hwhy & _) | (Hthrow & Hnn & Hnum & Hel)].
  - rewrite Hdone. split; [| by left]. split.
    + intros [e He]. discriminate.
    + intros (p & [= <-] & Hnn & Hnum & [old Hel]).
      destruct Hwhy as [-> | [[x ->] | Hnone]];
        [done | by destruct (Hnum x) | congruence].
  - rewrite Hthrow. cbn [snd]. split; [| by right]. split.
    + intros _. by exists price.
    + intros _. eauto.
Qed.

(** X8. When [updateDashboard] ends in an exception it has written
    nothing: the document is as it was, the supply element included even
    though the supply was fetched, and the console holds what the two
    fetches logged. *)
Theorem updateDashboard_abort_writes_nothing (h : Host) (st : State)
  (e : Exn) :
  snd (Main.updateDashboard h st) = Throw e ->
  document (fst (Main.updateDashboard h st)) = document st
  /\ fst (Main.updateDashboard h st)
     = fst (Main.fetchWeedSupply h (fst (Main.fetchWeedPrice h st))).
Proof.
  destruct (updateDashboard_steps h st) as (price & supply & _ & _ & _ & S & E).
  destruct (fetched_state h st) as [D _].
  set (st2 := fst (Main.fetchWeedSupply h (fst (Main.fetchWeedPrice h st)))) in *.
  destruct (writes_outcome price supply h st2 S) as (_ & _ & _ & Hout).
  rewrite E.
  destruct Hout as [(Hdone & _) | (Hthrow & _)].
  - rewrite Hdone. discriminate.
  - rewrite Hthrow. cbn [fst]. by split.
Qed.



(** X11. When [fetchWeedSupply] returned the Number [x], the page has
    the supply element and [updateDashboard] completes normally, that
    element shows the host's rendering of [x] with at most three
    fraction digits. *)
Theorem supply_display_written (h : Host) (st : State) (x : Num)
  (old : string) :
  snd (Main.fetchWeedSupply h st) = Normal (VNum x) ->
  text_of "current-supply" st = Some old ->
  snd (Main.updateDashboard h st) = Normal tt ->
  text_of "current-supply" (fst (Main.updateDashboard h st))
  = Some (toLocaleString h (VNum x)).
Proof.
  destruct (updateDashboard_steps h st) as (price & supply & _ & Rs & _ & S & E).
  destruct (fetched_state h st) as [D _].
  set (st2 := fst (Main.fetchWeedSupply h (fst (Main.fetchWeedPrice h st)))) in *.
  destruct (writes_outcome price supply h st2 S) as (_ & _ & _ & Hout).
  rewrite E, (Rs st). unfold text_of. rewrite <- D.
  intros [= ->] Hel Hdone.
  destruct Hout as [(_ & _ & Hwritten) | (Hthrow & _)].
  - by apply (Hwritten x old).
  - rewrite Hthrow in Hdone. discriminate.
Qed.



(** X13. The server-side and the browser-side price fetcher are the same
    function of the answer each gets: on a host that answers their two
    price requests alike they return the same value and log the same. *)
Theorem price_fetchers_agree (h : Host) (st : State) :
  net h service_price_request = net h browser_price_request ->
  Service.getWeedPrice h st = Main.fetchWeedPrice h st.
Proof.
  intros Hnet. by rewrite getWeedPrice_run, fetchWeedPrice_run, Hnet.
Qed.

(* ===================================================================== *)
(** * Concrete runs of the further properties *)
(* ===================================================================== *)


(** The same price body under status 200 and under status 503. *)
Lemma price_fetchers_ignore_status_witness :
  let h := reference_host (respond 200 (price_body (VNum n0_0042)))
             failed_to_fetch in
  let h' := reference_host (respond 503 (price_body (VNum n0_0042)))
              failed_to_fetch in
  Service.getWeedPrice h empty_page = Service.getWeedPrice h' empty_page
  /\ Service.getWeedPrice h' empty_page
     = (empty_page, Normal (VNum n0_0042)).
Proof.
  intros h h'.
  destruct (price_fetchers_ignore_status Service.getWeedPrice
              service_price_request h h' empty_page
              {| status := 200;
                 json_result := Normal (price_body (VNum n0_0042)) |}
              {| status := 503;
                 json_result := Normal (price_body (VNum n0_0042)) |})
    as [Hsame _].
  - left. reflexivity.
  - reflexivity.
  - reflexivity.
  - reflexivity.
  - split; [exact Hsame | reflexivity].
Defined.

(** The price service quotes [false]. *)
Lemma price_result_null_or_truthy_witness :
  let h := reference_host (respond 200 (price_body (VBool false)))
             failed_to_fetch in
  exists v, snd (Main.fetchWeedPrice h empty_page) = Normal v
            /\ v <> VBool false.
Proof.
  intros h.
  destruct (price_result_null_or_truthy Main.fetchWeedPrice
              browser_price_request h empty_page)
    as (v & Hv & _ & _ & Hfalse & _).
  - right. left. reflexivity.
  - exists v. split; [exact Hv | exact Hfalse].
Defined.

(** Two hosts that differ in what the price service answers. *)
Lemma fetchers_read_one_request_witness :
  let h := reference_host (respond 200 (price_body (VNum n0_0042)))
             (respond 200 (supply_body (VStr "123456789.123"))) in
  let h' := reference_host failed_to_fetch
              (respond 200 (supply_body (VStr "123456789.123"))) in
  Service.getTokenSupply h empty_page = Service.getTokenSupply h' empty_page.
Proof.
  intros h h'.
  apply (fetchers_read_one_request Service.getTokenSupply
           service_supply_request supply_diagnostic h h' empty_page).
  - right. right. left. reflexivity.
  - reflexivity.
  - reflexivity.
Defined.

(** [SOLANA_RPC_ENDPOINT] set to a private endpoint. *)
Lemma getTokenSupply_endpoint_override_witness :
  let answer := respond 200 (supply_body (VStr "123456789.123")) in
  let h := overridden_host "https://rpc.example.org" answer in
  let h' := reference_host failed_to_fetch answer in
  Service.getTokenSupply h empty_page = Service.getTokenSupply h' empty_page
  /\ snd (Main.fetchWeedSupply h empty_page) = Normal VNull.
Proof.
  intros answer h h'. split.
  - apply (getTokenSupply_endpoint_override h h' empty_page
             "https://rpc.example.org").
    + reflexivity.
    + discriminate.
    + left. reflexivity.
    + reflexivity.
  - reflexivity.
Defined.

(** No override: both supply fetchers on the same answer. *)
Lemma supply_fetchers_agree_by_default_witness :
  let h := reference_host failed_to_fetch
             (respond 200 (supply_body (VStr "123456789.123"))) in
  fst (Service.getTokenSupply h empty_page)
  = fst (Main.fetchWeedSupply h empty_page).
Proof.
  intros h.
  destruct (supply_fetchers_agree_by_default h empty_page) as [Hlog _].
  - left. reflexivity.
  - exact Hlog.
Defined.

(** The price quoted as a string, on the page with both elements. *)
Lemma updateDashboard_raises_iff_witness :
  let h := reference_host (respond 200 (price_body (VStr "0.0042")))
             (respond 200 (supply_body (VStr "123456789.123"))) in
  exists e, snd (Main.updateDashboard h dashboard_page) = Throw e.
Proof.
  intros h.
  destruct (updateDashboard_raises_iff h dashboard_page) as [[_ Hraise] _].
  apply Hraise. exists (VStr "0.0042").
  split; [reflexivity |]. split; [discriminate |].
  split; [discriminate |]. by exists "Loading...".
Defined.

Lemma updateDashboard_abort_writes_nothing_witness :
  let h := reference_host (respond 200 (price_body (VStr "0.0042")))
             (respond 200 (supply_body (VStr "123456789.123"))) in
  document (fst (Main.updateDashboard h dashboard_page))
  = document dashboard_page.
Proof.
  intros h.
  destruct (updateDashboard_abort_writes_nothing h dashboard_page
              (TypeError "toFixed is not a function")) as [Hdoc _].
  - reflexivity.
  - exact Hdoc.
Defined.


(** The supply 123456789.123 on the page with both elements. *)
Lemma supply_display_written_witness :
  let h := reference_host failed_to_fetch
             (respond 200 (supply_body (VStr "123456789.123"))) in
  text_of "current-supply" (fst (Main.updateDashboard h dashboard_page))
  = Some "123,456,789.123".
Proof.
  intros h.
  apply (supply_display_written h dashboard_page
           (S754_finite false 8285044871132086 (-26)) "Loading...").
  - reflexivity.
  - reflexivity.
  - reflexivity.
Defined.


(** A host that answers every price request with the same quote. *)
Lemma price_fetchers_agree_witness :
  let h := reference_host (respond 200 (price_body (VNum n0_0042)))
             failed_to_fetch in
  Service.getWeedPrice h empty_page = Main.fetchWeedPrice h empty_page.
Proof.
  intros h. apply (price_fetchers_agree h empty_page). reflexivity.
Defined.
